(** * PaperTrail: citation formatting and metadata extraction

    A shallow embedding of [papertrail.py]: the three citation formatters
    ([VancouverFormatter], [APAFormatter], [MLAFormatter]), the field
    extractors of [MetadataExtractor], the table of [CitationDatabase],
    and the handlers of [CitationManagerApp], the bibliography preview
    and export among them.

    Python strings are modelled as [string] (text in the ASCII range: the
    case mapping and the whitespace, digit and word classes below are the
    ASCII parts of Python's), the citation [Dict] as a record of optional
    strings ([None] for a missing key or an SQL NULL), Python lists as
    [list], and the ordinal as [Z]. *)

From Stdlib Require Import ZArith List Bool Lia Sorted.
From Stdlib Require Import Strings.String Strings.Ascii.
From Stdlib Require Import Numbers.DecimalString DecimalPos DecimalZ.
Import ListNotations.

Open Scope list_scope.
Open Scope string_scope.

(** ** Python string primitives *)

Module Py.

(** [str.isspace] on the ASCII range: TAB, LF, VT, FF, CR, FS, GS, RS, US
    and the space.  The same class is [\s] in a [str] pattern. *)
Definition isspace (c : ascii) : bool :=
  let n := nat_of_ascii c in
  (((9 <=? n) && (n <=? 13)) || ((28 <=? n) && (n <=? 32)))%nat.

(** [\d] on the ASCII range. *)
Definition isdigit (c : ascii) : bool :=
  let n := nat_of_ascii c in ((48 <=? n) && (n <=? 57))%nat.

(** [\w] on the ASCII range: letters, digits and the underscore. *)
Definition isword (c : ascii) : bool :=
  let n := nat_of_ascii c in
  isdigit c
  || ((65 <=? n) && (n <=? 90))%nat || ((97 <=? n) && (n <=? 122))%nat
  || (n =? 95)%nat.

(** [c.upper()] for one character. *)
Definition upper (c : ascii) : ascii :=
  let n := nat_of_ascii c in
  if ((97 <=? n) && (n <=? 122))%nat then ascii_of_nat (n - 32) else c.

(** [sep.join(l)]. *)
Definition join (sep : string) (l : list string) : string :=
  String.concat sep l.

(** [s.split(sep)] for a one-character separator: never an empty list,
    empty pieces are kept. *)
Fixpoint split (sep : ascii) (s : string) : list string :=
  match s with
  | EmptyString => [EmptyString]
  | String c s' =>
      if Ascii.eqb c sep then EmptyString :: split sep s'
      else match split sep s' with
           | [] => [String c EmptyString]
           | x :: xs => String c x :: xs
           end
  end.

(** [s.lstrip(chars)] and [s.rstrip(chars)], the set of characters given
    as a predicate. *)
Fixpoint lstrip_by (p : ascii -> bool) (s : string) : string :=
  match s with
  | EmptyString => EmptyString
  | String c s' => if p c then lstrip_by p s' else s
  end.

Fixpoint rstrip_by (p : ascii -> bool) (s : string) : string :=
  match s with
  | EmptyString => EmptyString
  | String c s' =>
      match rstrip_by p s' with
      | EmptyString => if p c then EmptyString else String c EmptyString
      | r => String c r
      end
  end.

(** [s.strip()]. *)
Definition strip (s : string) : string :=
  rstrip_by isspace (lstrip_by isspace s).

(** [s.rstrip(c)] for a one-character set. *)
Definition rstrip_char (c : ascii) (s : string) : string :=
  rstrip_by (Ascii.eqb c) s.

(** [s.split()] with no argument: the maximal runs of characters that are
    not whitespace, in order; [cur] is the run being read. *)
Fixpoint words_from (cur : string) (s : string) : list string :=
  match s with
  | EmptyString => match cur with EmptyString => [] | _ => [cur] end
  | String c s' =>
      if isspace c then
        match cur with
        | EmptyString => words_from EmptyString s'
        | _ => cur :: words_from EmptyString s'
        end
      else words_from (cur ++ String c EmptyString) s'
  end.

Definition words (s : string) : list string := words_from EmptyString s.

(** [n[0].upper()]; the tokens of [words] are never empty. *)
Definition initial (n : string) : string :=
  match n with
  | EmptyString => EmptyString
  | String c _ => String (upper c) EmptyString
  end.

(** [str(i)] and [f"{i}"] for an [int]. *)
Definition str_int (i : Z) : string :=
  NilZero.string_of_int (Z.to_int i).

(** [c * n] for a one-character string. *)
Fixpoint repeat_char (c : ascii) (n : nat) : string :=
  match n with
  | O => EmptyString
  | S n' => String c (repeat_char c n')
  end.

(** [s.lower()] on the ASCII range. *)
Definition lower_char (c : ascii) : ascii :=
  let n := nat_of_ascii c in
  if ((65 <=? n) && (n <=? 90))%nat then ascii_of_nat (n + 32) else c.

Fixpoint lower (s : string) : string :=
  match s with
  | EmptyString => EmptyString
  | String c s' => String (lower_char c) (lower s')
  end.

(** [s[:n]]. *)
Fixpoint take (n : nat) (s : string) : string :=
  match n, s with
  | S n', String c s' => String c (take n' s')
  | _, _ => EmptyString
  end.

(** The one-character string holding a double quote. *)
Definition dquote : string := String (ascii_of_nat 34) EmptyString.

(** Truth value of [d.get(key)] for a string-valued entry: false for a
    missing key, [None] and the empty string. *)
Definition truthy (o : option string) : bool :=
  match o with
  | Some (String _ _) => true
  | _ => false
  end.

(** [d[key]] once [d.get(key)] was found true. *)
Definition value (o : option string) : string :=
  match o with
  | Some s => s
  | None => EmptyString
  end.

End Py.

(** ** The citation record *)

(** The dictionary the formatters read, with the keys of the [citations]
    table. *)
Record Citation : Type := mkCitation {
  title : option string;
  authors : option string;
  year : option string;
  journal : option string;
  volume : option string;
  issue : option string;
  pages : option string;
  doi : option string;
  url : option string;
  source_type : option string
}.

(** Python's [l[-1]] on a list that is not empty. *)
Definition last_item (l : list string) : string := last l EmptyString.

(** Python's [l[:-1]]. *)
Definition but_last (l : list string) : list string := removelast l.

(** [l.append(x)]. *)
Definition append (l : list string) (x : string) : list string :=
  (l ++ [x])%list.

(** [for x in xs: out.append(f x)] starting from an empty [out]. *)
Definition append_each (f : string -> string) (xs : list string)
  : list string :=
  fold_left (fun out x => append out (f x)) xs [].

(** ** Vancouver *)

Module VancouverFormatter.

(** Body of the loop over [authors[:6]]: one author as surname and initials. *)
Definition format_author (author : string) : string :=
  let author := Py.strip author in
  let name_parts := Py.words author in
  if (2 <=? List.length name_parts)%nat then
    let surname := last_item name_parts in
    let initials := Py.join EmptyString (map Py.initial (but_last name_parts)) in
    surname ++ " " ++ initials
  else author.

(** The list [parts] as [format_citation] has built it before the join. *)
Definition parts (citation : Citation) : list string :=
  let parts := [] in
  let parts :=
    if Py.truthy (authors citation) then
      let authors := Py.split "," (Py.value (authors citation)) in
      let formatted_authors := append_each format_author (firstn 6 authors) in
      if (6 <? List.length authors)%nat then
        append parts (Py.join ", " formatted_authors ++ ", et al.")
      else
        append parts (Py.join ", " formatted_authors ++ ".")
    else parts in
  let parts :=
    if Py.truthy (title citation) then
      append parts (Py.value (title citation) ++ ".")
    else parts in
  let parts :=
    if Py.truthy (journal citation) then
      let journal_part := Py.value (journal citation) in
      let journal_part :=
        if Py.truthy (year citation)
        then journal_part ++ " " ++ Py.value (year citation)
        else journal_part in
      let journal_part :=
        if Py.truthy (volume citation)
        then journal_part ++ ";" ++ Py.value (volume citation)
        else journal_part in
      let journal_part :=
        if Py.truthy (issue citation)
        then journal_part ++ "(" ++ Py.value (issue citation) ++ ")"
        else journal_part in
      let journal_part :=
        if Py.truthy (pages citation)
        then journal_part ++ ":" ++ Py.value (pages citation)
        else journal_part in
      append parts (journal_part ++ ".")
    else if Py.truthy (year citation) then
      append parts (Py.value (year citation) ++ ".")
    else parts in
  let parts :=
    if Py.truthy (doi citation) then
      append parts ("doi:" ++ Py.value (doi citation))
    else if Py.truthy (url citation) then
      append parts ("Available from: " ++ Py.value (url citation))
    else parts in
  parts.

Definition format_citation (citation : Citation) (index : Z) : string :=
  Py.str_int index ++ ". " ++ Py.join " " (parts citation).

End VancouverFormatter.

(** ** APA *)

Module APAFormatter.

(** Body of the loop over [authors[:20]]. *)
Definition format_author (author : string) : string :=
  let author := Py.strip author in
  let name_parts := Py.words author in
  if (2 <=? List.length name_parts)%nat then
    let surname := last_item name_parts in
    let initials :=
      Py.join ". " (map Py.initial (but_last name_parts)) ++ "." in
    surname ++ ", " ++ initials
  else author.

Definition parts (citation : Citation) : list string :=
  let parts := [] in
  let parts :=
    if Py.truthy (authors citation) then
      let authors := Py.split "," (Py.value (authors citation)) in
      let formatted_authors := append_each format_author (firstn 20 authors) in
      if (20 <? List.length authors)%nat then
        append parts (Py.join ", " (firstn 19 formatted_authors) ++ ", ... "
                  ++ last_item formatted_authors)
      else if (1 <? List.length formatted_authors)%nat then
        append parts (Py.join ", " (but_last formatted_authors) ++ ", & "
                  ++ last_item formatted_authors)
      else
        append parts (hd EmptyString formatted_authors)
    else parts in
  let parts :=
    if Py.truthy (year citation) then
      append parts ("(" ++ Py.value (year citation) ++ ").")
    else parts in
  let parts :=
    if Py.truthy (title citation) then
      append parts (Py.value (title citation) ++ ".")
    else parts in
  let parts :=
    if Py.truthy (journal citation) then
      let journal_part := Py.value (journal citation) in
      let journal_part :=
        if Py.truthy (volume citation)
        then journal_part ++ ", " ++ Py.value (volume citation)
        else journal_part in
      let journal_part :=
        if Py.truthy (issue citation)
        then journal_part ++ "(" ++ Py.value (issue citation) ++ ")"
        else journal_part in
      let journal_part :=
        if Py.truthy (pages citation)
        then journal_part ++ ", " ++ Py.value (pages citation)
        else journal_part in
      append parts (journal_part ++ ".")
    else parts in
  let parts :=
    if Py.truthy (doi citation) then
      append parts ("https://doi.org/" ++ Py.value (doi citation))
    else if Py.truthy (url citation) then
      append parts (Py.value (url citation))
    else parts in
  parts.

Definition format_citation (citation : Citation) (index : Z) : string :=
  Py.join " " (parts citation).

End APAFormatter.

(** ** MLA *)

Module MLAFormatter.

(** [parts[-1] = v] on the list built so far. *)
Definition set_last (l : list string) (v : string) : list string :=
  match l with
  | [] => []
  | _ => append (but_last l) v
  end.

Definition parts (citation : Citation) : list string :=
  let parts := [] in
  let parts :=
    if Py.truthy (authors citation) then
      let authors := Py.split "," (Py.value (authors citation)) in
      if (0 <? List.length authors)%nat then
        let first_author := Py.strip (hd EmptyString authors) in
        let name_parts := Py.words first_author in
        let parts :=
          if (2 <=? List.length name_parts)%nat then
            append parts (last_item name_parts ++ ", "
                      ++ Py.join " " (but_last name_parts) ++ ".")
          else
            append parts (first_author ++ ".") in
        if (1 <? List.length authors)%nat then
          set_last parts (Py.rstrip_char "." (last_item parts) ++ ", et al.")
        else parts
      else parts
    else parts in
  let parts :=
    if Py.truthy (title citation) then
      append parts (Py.dquote ++ Py.value (title citation) ++ "." ++ Py.dquote)
    else parts in
  let parts :=
    if Py.truthy (journal citation) then
      let journal_part := Py.value (journal citation) in
      let journal_part :=
        if Py.truthy (volume citation)
        then journal_part ++ ", vol. " ++ Py.value (volume citation)
        else journal_part in
      let journal_part :=
        if Py.truthy (issue citation)
        then journal_part ++ ", no. " ++ Py.value (issue citation)
        else journal_part in
      let journal_part :=
        if Py.truthy (year citation)
        then journal_part ++ ", " ++ Py.value (year citation)
        else journal_part in
      let journal_part :=
        if Py.truthy (pages citation)
        then journal_part ++ ", pp. " ++ Py.value (pages citation)
        else journal_part in
      append parts (journal_part ++ ".")
    else if Py.truthy (year citation) then
      append parts (Py.value (year citation) ++ ".")
    else parts in
  let parts :=
    if Py.truthy (doi citation) then
      append parts ("doi:" ++ Py.value (doi citation) ++ ".")
    else if Py.truthy (url citation) then
      append parts (Py.value (url citation) ++ ".")
    else parts in
  parts.

Definition format_citation (citation : Citation) (index : Z) : string :=
  Py.join " " (parts citation).

End MLAFormatter.

(** ** Regular expressions of the extractor *)

Module Re.

(** [re.search] for a pattern given by its anchored matcher [m]: [m prev s]
    is the match that starts at the head of [s], where [prev] is the
    character before it (for [\b]); the start positions are tried from left
    to right, the end of the text included. *)
Fixpoint search (m : option ascii -> string -> option string)
  (prev : option ascii) (s : string) : option string :=
  match m prev s with
  | Some r => Some r
  | None =>
      match s with
      | EmptyString => None
      | String c s' => search m (Some c) s'
      end
  end.

Definition head (s : string) : option ascii :=
  match s with
  | EmptyString => None
  | String c _ => Some c
  end.

(** [\b]: exactly one of the two neighbours is a word character; the ends
    of the text count as not a word character. *)
Definition is_word (o : option ascii) : bool :=
  match o with
  | Some c => Py.isword c
  | None => false
  end.

Definition word_boundary (prev next : option ascii) : bool :=
  xorb (is_word prev) (is_word next).

(** [20\d{2}|19\d{2}] anchored at the head of [s]. *)
Definition year_at (s : string) : option string :=
  match s with
  | String a (String b (String c (String d _))) =>
      if ((Ascii.eqb a "2" && Ascii.eqb b "0")
          || (Ascii.eqb a "1" && Ascii.eqb b "9"))
         && Py.isdigit c && Py.isdigit d
      then Some (String a (String b (String c (String d EmptyString))))
      else None
  | _ => None
  end.

Definition year_pattern (prev : option ascii) (s : string) : option string :=
  year_at s.

(** [\b(20\d{2}|19\d{2})\b] anchored at the head of [s]. *)
Definition year_word_pattern (prev : option ascii) (s : string)
  : option string :=
  if word_boundary prev (head s) then
    match s with
    | String a (String b (String c (String d rest))) =>
        match year_at s with
        | Some y => if word_boundary (Some d) (head rest) then Some y else None
        | None => None
        end
    | _ => None
    end
  else None.

(** The longest prefix of [s] whose characters satisfy [p], and what
    follows it: a greedy [p+] with nothing to give back. *)
Fixpoint span (p : ascii -> bool) (s : string) : string * string :=
  match s with
  | EmptyString => (EmptyString, EmptyString)
  | String c s' =>
      if p c then let (a, b) := span p s' in (String c a, b)
      else (EmptyString, s)
  end.

Definition not_space (c : ascii) : bool := negb (Py.isspace c).

(** [10\.\d{4,}/[^\s]+] anchored at the head of [s].  The digits are
    followed by a slash, which is no digit, and the last run by nothing,
    so the greedy runs are the match. *)
Definition doi_at (s : string) : option string :=
  match s with
  | String a (String b (String c r)) =>
      if Ascii.eqb a "1" && Ascii.eqb b "0" && Ascii.eqb c "." then
        let (digits, r1) := span Py.isdigit r in
        if (4 <=? String.length digits)%nat then
          match r1 with
          | String e r2 =>
              if Ascii.eqb e "/" then
                let (suffix, _) := span not_space r2 in
                if (1 <=? String.length suffix)%nat
                then Some ("10." ++ digits ++ "/" ++ suffix)
                else None
              else None
          | EmptyString => None
          end
        else None
      else None
  | _ => None
  end.

Definition doi_pattern (prev : option ascii) (s : string) : option string :=
  doi_at s.

End Re.

(** ** The parsed page *)

Module Soup.

(** A tag of the parsed document: its name, its attributes and the text
    inside it ([get_text()]). *)
Record Tag : Type := mkTag {
  tag_name : string;
  tag_attrs : list (string * string);
  tag_text : string
}.

(** The document as [find] and [find_all] walk it: its tags in document
    order. *)
Definition t : Type := list Tag.

(** [tag.get(key)]. *)
Fixpoint lookup (key : string) (l : list (string * string)) : option string :=
  match l with
  | [] => None
  | (k, v) :: l' => if String.eqb k key then Some v else lookup key l'
  end.

Definition get (tag : Tag) (key : string) : option string :=
  lookup key (tag_attrs tag).

Definition has_attr (key value : string) (tag : Tag) : bool :=
  match get tag key with
  | Some v => String.eqb v value
  | None => false
  end.

(** [soup.find(name, attrs={key: value})]: the first such tag, or [None]. *)
Definition find_attr (name key value : string) (soup : t) : option Tag :=
  List.find (fun tag => String.eqb (tag_name tag) name && has_attr key value tag)
    soup.

(** [soup.find_all(name, attrs={key: value})]. *)
Definition find_all_attr (name key value : string) (soup : t) : list Tag :=
  filter (fun tag => String.eqb (tag_name tag) name && has_attr key value tag)
    soup.

(** [soup.find(name)]. *)
Definition find (name : string) (soup : t) : option Tag :=
  List.find (fun tag => String.eqb (tag_name tag) name) soup.

(** [tag and tag.get('content')] as a condition, and the content then. *)
Definition content (o : option Tag) : option string :=
  match o with
  | Some tag => get tag "content"
  | None => None
  end.

End Soup.

(** ** MetadataExtractor *)

Module MetadataExtractor.

Definition _extract_title (soup : Soup.t) : string :=
  let meta_title := Soup.find_attr "meta" "property" "og:title" soup in
  if Py.truthy (Soup.content meta_title) then Py.value (Soup.content meta_title)
  else
    let meta_title := Soup.find_attr "meta" "name" "citation_title" soup in
    if Py.truthy (Soup.content meta_title)
    then Py.value (Soup.content meta_title)
    else
      match Soup.find "title" soup with
      | Some title_tag => Py.strip (Soup.tag_text title_tag)
      | None => "Unknown Title"
      end.

Definition _extract_authors (soup : Soup.t) : string :=
  let author_tags := Soup.find_all_attr "meta" "name" "citation_author" soup in
  let authors :=
    fold_left
      (fun authors tag =>
         if Py.truthy (Soup.get tag "content")
         then append authors (Py.value (Soup.get tag "content"))
         else authors)
      author_tags [] in
  match authors with
  | _ :: _ => Py.join ", " authors
  | [] =>
      let meta_author := Soup.find_attr "meta" "name" "author" soup in
      if Py.truthy (Soup.content meta_author)
      then Py.value (Soup.content meta_author)
      else EmptyString
  end.

(** [now_year] is [datetime.now().year]. *)
Definition _extract_year (now_year : Z) (soup : Soup.t) (html_text : string)
  : string :=
  let date_tag :=
    Soup.find_attr "meta" "name" "citation_publication_date" soup in
  let from_tag :=
    if Py.truthy (Soup.content date_tag)
    then Re.search Re.year_pattern None (Py.value (Soup.content date_tag))
    else None in
  match from_tag with
  | Some year_match => year_match
  | None =>
      match Re.search Re.year_word_pattern None html_text with
      | Some year_match => year_match
      | None => Py.str_int now_year
      end
  end.

Definition _extract_journal (soup : Soup.t) : string :=
  let journal_tag :=
    Soup.find_attr "meta" "name" "citation_journal_title" soup in
  if Py.truthy (Soup.content journal_tag)
  then Py.value (Soup.content journal_tag)
  else EmptyString.

Definition _extract_doi (soup : Soup.t) (html_text : string) : string :=
  let doi_tag := Soup.find_attr "meta" "name" "citation_doi" soup in
  if Py.truthy (Soup.content doi_tag) then Py.value (Soup.content doi_tag)
  else
    match Re.search Re.doi_pattern None html_text with
    | Some doi_match => doi_match
    | None => EmptyString
    end.

(** What [requests.get] and [raise_for_status] give for a URL: an
    exception with its text, or the page, parsed ([soup]) and as text
    ([response.text]). *)
Inductive Response : Type :=
| Raised (e : string)
| Page (soup : Soup.t) (html_text : string).

(** [extract_from_url]: the dictionary of metadata, or the exception. *)
Definition extract_from_url (get : string -> Response) (now_year : Z)
  (url : string) : Citation + string :=
  match get url with
  | Raised e => inr ("Failed to extract metadata: " ++ e)
  | Page soup html_text =>
      inl {| url := Some url;
             title := Some (_extract_title soup);
             authors := Some (_extract_authors soup);
             year := Some (_extract_year now_year soup html_text);
             journal := Some (_extract_journal soup);
             doi := Some (_extract_doi soup html_text);
             source_type := Some "website";
             volume := None; issue := None; pages := None |}
  end.

End MetadataExtractor.

(** ** CitationManagerApp: preview and export *)

Module CitationManagerApp.

Inductive Style : Type := Vancouver | APA | MLA.

Definition style_name (style : Style) : string :=
  match style with
  | Vancouver => "Vancouver"
  | APA => "APA"
  | MLA => "MLA"
  end.

(** [self.formatters[style]]. *)
Definition formatters (style : Style) : Citation -> Z -> string :=
  match style with
  | Vancouver => VancouverFormatter.format_citation
  | APA => APAFormatter.format_citation
  | MLA => MLAFormatter.format_citation
  end.

Inductive Dialog : Type :=
| showinfo (caption message : string)
| showerror (caption message : string).

(** What the two methods read and change: the rows of the database, the
    chosen style, the text of the preview pane, and the message boxes
    shown so far. *)
Record App : Type := mkApp {
  citations : list Citation;
  style_var : Style;
  preview_text : string;
  dialogs : list Dialog
}.

(** [enumerate(l, start)]. *)
Fixpoint enumerate {A : Type} (start : Z) (l : list A) : list (Z * A) :=
  match l with
  | [] => []
  | x :: l' => (start, x) :: enumerate (start + 1) l'
  end.

Definition newline : string := String (ascii_of_nat 10) EmptyString.

(** The text written after the guard, by the pane's [insert] calls or the
    file's [write] calls alike, starting from an empty pane or file. *)
Definition written (style : Style) (citations : list Citation) : string :=
  let out := "Bibliography (" ++ style_name style ++ " Style)" ++ newline in
  let out := out ++ Py.repeat_char "=" 80 ++ newline ++ newline in
  fold_left
    (fun out '(idx, citation) =>
       let formatted := formatters style citation idx in
       out ++ formatted ++ newline ++ newline)
    (enumerate 1 citations) out.

Definition preview_bibliography (app : App) : App :=
  match citations app with
  | [] =>
      {| citations := citations app; style_var := style_var app;
         preview_text := preview_text app;
         dialogs := dialogs app ++
           [showinfo "No Citations"
              "No citations to preview. Add some citations first!"] |}
  | _ :: _ =>
      {| citations := citations app; style_var := style_var app;
         preview_text := written (style_var app) (citations app);
         dialogs := dialogs app |}
  end.

(** [export_bibliography]: [asksaveasfilename] answers the file dialog from
    the proposed name (the empty string when cancelled), [open_error] is
    the exception of [open], if any.  The result is the application and
    the file written, as a name and its content. *)
Definition export_bibliography (asksaveasfilename : string -> string)
  (open_error : option string) (app : App) : App * option (string * string) :=
  match citations app with
  | [] =>
      ({| citations := citations app; style_var := style_var app;
          preview_text := preview_text app;
          dialogs := dialogs app ++
            [showinfo "No Citations"
               "No citations to export. Add some citations first!"] |},
       None)
  | _ :: _ =>
      let style := style_var app in
      let filename :=
        asksaveasfilename
          ("bibliography_" ++ Py.lower (style_name style) ++ ".txt") in
      match filename with
      | EmptyString => (app, None)
      | _ =>
          match open_error with
          | Some e =>
              ({| citations := citations app; style_var := style_var app;
                  preview_text := preview_text app;
                  dialogs := dialogs app ++
                    [showerror "Export Error"
                       ("Failed to export bibliography:" ++ newline ++ e)] |},
               None)
          | None =>
              ({| citations := citations app; style_var := style_var app;
                  preview_text := preview_text app;
                  dialogs := dialogs app ++
                    [showinfo "Success"
                       ("Bibliography exported to:" ++ newline ++ filename)] |},
               Some (filename, written style (citations app)))
          end
      end
  end.

End CitationManagerApp.

(** ** CitationDatabase *)

Module CitationDatabase.

(** A row of the [citations] table, which is also the dictionary that
    [get_all_citations] builds from it: [title] is NOT NULL, the other
    text columns may hold NULL ([None]). *)
Record Row : Type := mkRow {
  row_id : Z;
  row_title : string;
  row_authors : option string;
  row_year : option string;
  row_journal : option string;
  row_volume : option string;
  row_issue : option string;
  row_pages : option string;
  row_doi : option string;
  row_url : option string;
  row_source_type : option string;
  row_date_added : string
}.

(** The database file: the rows of the table as they were inserted, and
    the largest id ever given, which AUTOINCREMENT keeps apart from the
    table. *)
Record t : Type := mkDb {
  rows : list Row;
  sequence : Z
}.

(** [init_database]: CREATE TABLE IF NOT EXISTS leaves a table that exists
    as it is; [file] is the database found at [db_path], if any. *)
Definition init_database (file : option t) : t :=
  match file with
  | Some db => db
  | None => {| rows := []; sequence := 0 |}
  end.

(** [d.get(key, default)] on a dictionary of strings, [None] being a key
    that is missing. *)
Definition get_default (o : option string) (default : string) : string :=
  match o with
  | Some v => v
  | None => default
  end.

Fixpoint largest_id (l : list Row) : Z :=
  match l with
  | [] => 0
  | r :: l' => Z.max (row_id r) (largest_id l')
  end.

(** The id of the next row: one more than the largest id that the table
    holds or has ever held. *)
Definition next_id (db : t) : Z :=
  Z.max (sequence db) (largest_id (rows db)) + 1.

(** [add_citation]; [now] is CURRENT_TIMESTAMP.  The result is the
    database and [cursor.lastrowid]. *)
Definition add_citation (now : string) (citation_data : Citation) (db : t)
  : t * Z :=
  let citation_id := next_id db in
  let row :=
    {| row_id := citation_id;
       row_title := get_default (title citation_data) EmptyString;
       row_authors := Some (get_default (authors citation_data) EmptyString);
       row_year := Some (get_default (year citation_data) EmptyString);
       row_journal := Some (get_default (journal citation_data) EmptyString);
       row_volume := Some (get_default (volume citation_data) EmptyString);
       row_issue := Some (get_default (issue citation_data) EmptyString);
       row_pages := Some (get_default (pages citation_data) EmptyString);
       row_doi := Some (get_default (doi citation_data) EmptyString);
       row_url := Some (get_default (url citation_data) EmptyString);
       row_source_type :=
         Some (get_default (source_type citation_data) "website");
       row_date_added := now |} in
  ({| rows := (rows db ++ [row])%list; sequence := citation_id |},
   citation_id).

(** ORDER BY id, as an insertion sort. *)
Fixpoint insert_by_id (r : Row) (l : list Row) : list Row :=
  match l with
  | [] => [r]
  | x :: l' =>
      if (row_id r <? row_id x)%Z then r :: l
      else x :: insert_by_id r l'
  end.

Fixpoint order_by_id (l : list Row) : list Row :=
  match l with
  | [] => []
  | r :: l' => insert_by_id r (order_by_id l')
  end.

Definition get_all_citations (db : t) : list Row :=
  order_by_id (rows db).

Definition delete_citation (citation_id : Z) (db : t) : t :=
  {| rows := filter (fun r => negb (row_id r =? citation_id)%Z) (rows db);
     sequence := sequence db |}.

Definition clear_all (db : t) : t :=
  {| rows := []; sequence := sequence db |}.

(** The dictionary of a row as the formatters read it. *)
Definition as_citation (r : Row) : Citation :=
  {| title := Some (row_title r); authors := row_authors r;
     year := row_year r; journal := row_journal r;
     volume := row_volume r; issue := row_issue r; pages := row_pages r;
     doi := row_doi r; url := row_url r;
     source_type := row_source_type r |}.

End CitationDatabase.

(** ** CitationManagerApp: the handlers of the window *)

Module Handlers.

(** A line of the list of citations: the values of its four columns. *)
Record TreeRow : Type := mkTreeRow {
  cell_id : Z;
  cell_title : string;
  cell_authors : option string;
  cell_year : option string
}.

Inductive Message : Type :=
| showinfo (caption message : string)
| showwarning (caption message : string)
| showerror (caption message : string).

(** What the handlers read and change: the database, the lines of the
    list, the chosen style, the text of the preview pane and the message
    boxes shown so far.  The text typed in the entry fields and the
    answers to the dialogs are arguments of the handlers; what a handler
    writes back into an entry field is not kept. *)
Record Session : Type := mkSession {
  db : CitationDatabase.t;
  tree : list TreeRow;
  style_var : CitationManagerApp.Style;
  preview_text : string;
  dialogs : list Message
}.

(** [s[:n] + '...' if len(s) > n else s]. *)
Definition shorten (n : nat) (s : string) : string :=
  if (n <? String.length s)%nat then Py.take n s ++ "..." else s.

(** The values inserted in the list for one citation. *)
Definition cells (citation : CitationDatabase.Row) : TreeRow :=
  {| cell_id := CitationDatabase.row_id citation;
     cell_title := shorten 50 (CitationDatabase.row_title citation);
     cell_authors :=
       match CitationDatabase.row_authors citation with
       | Some a => if Py.truthy (Some a) then Some (shorten 30 a) else Some a
       | None => None
       end;
     cell_year := CitationDatabase.row_year citation |}.

Definition refresh_citation_list (s : Session) : Session :=
  {| db := db s;
     tree := map cells (CitationDatabase.get_all_citations (db s));
     style_var := style_var s; preview_text := preview_text s;
     dialogs := dialogs s |}.

Definition show (m : Message) (s : Session) : Session :=
  {| db := db s; tree := tree s; style_var := style_var s;
     preview_text := preview_text s; dialogs := (dialogs s ++ [m])%list |}.

Definition with_db (d : CitationDatabase.t) (s : Session) : Session :=
  {| db := d; tree := tree s; style_var := style_var s;
     preview_text := preview_text s; dialogs := dialogs s |}.

(** [__init__]: the database is opened, the style is Vancouver, the list
    is filled. *)
Definition start (file : option CitationDatabase.t) : Session :=
  refresh_citation_list
    {| db := CitationDatabase.init_database file; tree := [];
       style_var := CitationManagerApp.Vancouver;
       preview_text := EmptyString; dialogs := [] |}.

(** [fetch_and_add]: [url_entry] is the text of the URL field, [get] and
    [now_year] are those of [extract_from_url], [now] is the time of the
    insertion. *)
Definition fetch_and_add (url_entry : string)
  (get : string -> MetadataExtractor.Response) (now_year : Z) (now : string)
  (s : Session) : Session :=
  let url := Py.strip url_entry in
  match url with
  | EmptyString => show (showwarning "Input Required" "Please enter a URL") s
  | _ =>
      match MetadataExtractor.extract_from_url get now_year url with
      | inl metadata =>
          let (d, citation_id) :=
            CitationDatabase.add_citation now metadata (db s) in
          let s := refresh_citation_list (with_db d s) in
          show (showinfo "Success"
                  ("Citation added successfully!" ++ CitationManagerApp.newline
                   ++ "Title: "
                   ++ CitationDatabase.get_default (title metadata) "Unknown"))
            s
      | inr e =>
          show (showerror "Error"
                  ("Failed to fetch metadata:" ++ CitationManagerApp.newline
                   ++ e))
            s
      end
  end.

(** [add_manual_citation], from the texts of the five entry fields. *)
Definition add_manual_citation
  (title_entry authors_entry year_entry journal_entry doi_entry : string)
  (now : string) (s : Session) : Session :=
  let citation_data :=
    {| title := Some (Py.strip title_entry);
       authors := Some (Py.strip authors_entry);
       year := Some (Py.strip year_entry);
       journal := Some (Py.strip journal_entry);
       doi := Some (Py.strip doi_entry);
       source_type := Some "manual";
       volume := None; issue := None; pages := None; url := None |} in
  if Py.truthy (title citation_data) then
    let (d, _) := CitationDatabase.add_citation now citation_data (db s) in
    let s := refresh_citation_list (with_db d s) in
    show (showinfo "Success" "Citation added successfully!") s
  else
    show (showwarning "Input Required" "Please enter at least a title") s.

(** [delete_selected]: [selected] are the lines selected in the list,
    [askyesno] the answer to the confirmation. *)
Definition delete_selected (selected : list TreeRow) (askyesno : bool)
  (s : Session) : Session :=
  match selected with
  | [] =>
      show (showwarning "No Selection" "Please select a citation to delete") s
  | _ :: _ =>
      if askyesno then
        let d :=
          fold_left
            (fun d item => CitationDatabase.delete_citation (cell_id item) d)
            selected (db s) in
        let s := refresh_citation_list (with_db d s) in
        show (showinfo "Success" "Citation(s) deleted successfully!") s
      else s
  end.

Definition clear_all (askyesno : bool) (s : Session) : Session :=
  if askyesno then
    let s := refresh_citation_list
               (with_db (CitationDatabase.clear_all (db s)) s) in
    let s :=
      {| db := db s; tree := tree s; style_var := style_var s;
         preview_text := EmptyString; dialogs := dialogs s |} in
    show (showinfo "Success" "All citations cleared!") s
  else s.

(** The session as [preview_bibliography] and [export_bibliography] see
    it, and their message boxes among those of the session. *)
Definition as_app (s : Session) : CitationManagerApp.App :=
  {| CitationManagerApp.citations :=
       map CitationDatabase.as_citation
         (CitationDatabase.get_all_citations (db s));
     CitationManagerApp.style_var := style_var s;
     CitationManagerApp.preview_text := preview_text s;
     CitationManagerApp.dialogs := [] |}.

Definition as_message (d : CitationManagerApp.Dialog) : Message :=
  match d with
  | CitationManagerApp.showinfo c m => showinfo c m
  | CitationManagerApp.showerror c m => showerror c m
  end.

Definition preview_bibliography (s : Session) : Session :=
  let app := CitationManagerApp.preview_bibliography (as_app s) in
  {| db := db s; tree := tree s; style_var := style_var s;
     preview_text := CitationManagerApp.preview_text app;
     dialogs :=
       (dialogs s ++ map as_message (CitationManagerApp.dialogs app))%list |}.

(** What the user does in the window. *)
Inductive Event : Type :=
| FetchAndAdd (url_entry : string)
    (get : string -> MetadataExtractor.Response) (now_year : Z) (now : string)
| AddManual
    (title_entry authors_entry year_entry journal_entry doi_entry : string)
    (now : string)
| DeleteSelected (selected : list TreeRow) (askyesno : bool)
| ClearAll (askyesno : bool)
| Refresh
| Preview
| SetStyle (style : CitationManagerApp.Style).

Definition handle (s : Session) (e : Event) : Session :=
  match e with
  | FetchAndAdd url_entry get now_year now =>
      fetch_and_add url_entry get now_year now s
  | AddManual t a y j d now => add_manual_citation t a y j d now s
  | DeleteSelected selected askyesno => delete_selected selected askyesno s
  | ClearAll askyesno => clear_all askyesno s
  | Refresh => refresh_citation_list s
  | Preview => preview_bibliography s
  | SetStyle style =>
      {| db := db s; tree := tree s; style_var := style;
         preview_text := preview_text s; dialogs := dialogs s |}
  end.

(** The session after a run of events, from the opening of the window. *)
Definition run (file : option CitationDatabase.t) (events : list Event)
  : Session :=
  fold_left handle events (start file).

End Handlers.

(** ** Vocabulary of the statements *)

(** Number of occurrences of a character. *)
Fixpoint count_char (c : ascii) (s : string) : nat :=
  match s with
  | EmptyString => 0
  | String a s' => (if Ascii.eqb a c then 1 else 0) + count_char c s'
  end.

(** The record with its [authors] entry removed. *)
Definition without_authors (c : Citation) : Citation :=
  {| title := title c; authors := None; year := year c;
     journal := journal c; volume := volume c; issue := issue c;
     pages := pages c; doi := doi c; url := url c;
     source_type := source_type c |}.

(** The author segment of each style, as a function of the pieces of the
    split [authors] string. *)
Definition vancouver_authors (names : list string) : string :=
  Py.join ", " (map VancouverFormatter.format_author (firstn 6 names))
  ++ (if (6 <? List.length names)%nat then ", et al." else ".").

Definition apa_authors (names : list string) : string :=
  let formatted_authors := map APAFormatter.format_author (firstn 20 names) in
  if (20 <? List.length names)%nat then
    Py.join ", " (firstn 19 formatted_authors) ++ ", ... "
    ++ last_item formatted_authors
  else if (1 <? List.length formatted_authors)%nat then
    Py.join ", " (but_last formatted_authors) ++ ", & "
    ++ last_item formatted_authors
  else hd EmptyString formatted_authors.

Definition mla_first_author (names : list string) : string :=
  let first_author := Py.strip (hd EmptyString names) in
  let name_parts := Py.words first_author in
  if (2 <=? List.length name_parts)%nat then
    last_item name_parts ++ ", " ++ Py.join " " (but_last name_parts) ++ "."
  else first_author ++ ".".

Definition mla_authors (names : list string) : string :=
  if (1 <? List.length names)%nat
  then Py.rstrip_char "." (mla_first_author names) ++ ", et al."
  else mla_first_author names.

(** Records used as concrete inputs. *)
Definition with_authors (s : string) : Citation :=
  {| title := None; authors := Some s; year := None; journal := None;
     volume := None; issue := None; pages := None; doi := None; url := None;
     source_type := None |}.

Definition seven_authors : Citation :=
  with_authors
    "Ann Lee, Bob Ray, Cy Dow, Di Poe, Ed Kim, Flo Orr, Gus Ude".

Definition six_names_trailing_comma : Citation :=
  with_authors "Ann Lee, Bob Ray, Cy Dow, Di Poe, Ed Kim, Flo Orr,".

Definition twenty_one_authors : Citation :=
  with_authors
    ("A Aa, B Bb, C Cc, D Dd, E Ee, F Ff, G Gg, H Hh, I Ii, J Jj, "
     ++ "K Kk, L Ll, M Mm, N Nn, O Oo, P Pp, Q Qq, R Rr, S Ss, T Tt, U Uu").

Definition initial_before_surname : Citation :=
  with_authors "John Q. Public, Jane Doe".

(** The characters of an ordinal label: the digits and the sign. *)
Definition label_char (c : ascii) : bool :=
  Py.isdigit c || Ascii.eqb c "-".

(** A record with nothing but, possibly, a title. *)
Definition title_at_most (c : Citation) : Prop :=
  Py.truthy (authors c) = false /\ Py.truthy (year c) = false /\
  Py.truthy (journal c) = false /\ Py.truthy (volume c) = false /\
  Py.truthy (issue c) = false /\ Py.truthy (pages c) = false /\
  Py.truthy (doi c) = false /\ Py.truthy (url c) = false.

(** [s] occurs in [t]. *)
Definition occurs_in (s t : string) : Prop :=
  exists pre suf : string, t = pre ++ s ++ suf.

(** The statement of the title-only property for one formatter: on such a
    record the output is not empty and holds the title, and it is the
    empty string when the title is empty too. *)
Definition renders_title_only (format : Citation -> Z -> string) : Prop :=
  forall (c : Citation) (index : Z),
    title_at_most c ->
    (Py.truthy (title c) = true ->
       format c index <> EmptyString /\
       occurs_in (Py.value (title c)) (format c index)) /\
    (Py.truthy (title c) = false -> format c index = EmptyString).

(** A stored row whose text columns are all empty. *)
Definition empty_record : Citation :=
  {| title := Some EmptyString; authors := Some EmptyString;
     year := Some EmptyString; journal := Some EmptyString;
     volume := Some EmptyString; issue := Some EmptyString;
     pages := Some EmptyString; doi := Some EmptyString;
     url := Some EmptyString; source_type := Some "website" |}.

Definition title_only_record : Citation :=
  {| title := Some "On Growth"; authors := Some EmptyString; year := None;
     journal := None; volume := None; issue := None; pages := None;
     doi := None; url := None; source_type := Some "manual" |}.

(** The APA author segment as the specification has it: over 20 authors,
    the first 19, the ellipsis, and the last author of the whole list. *)
Definition apa_authors_documented (names : list string) : string :=
  if (20 <? List.length names)%nat then
    Py.join ", " (map APAFormatter.format_author (firstn 19 names))
    ++ ", ... " ++ APAFormatter.format_author (last_item names)
  else if (1 <? List.length names)%nat then
    Py.join ", " (map APAFormatter.format_author (but_last names))
    ++ ", & " ++ APAFormatter.format_author (last_item names)
  else APAFormatter.format_author (hd EmptyString names).

(** [s] without its last character. *)
Fixpoint drop_last_char (s : string) : string :=
  match s with
  | EmptyString => EmptyString
  | String c EmptyString => EmptyString
  | String c s' => String c (drop_last_char s')
  end.

(** The MLA author segment as the specification has it: with more than
    one author, the one trailing period of the rendered first author gives
    way to ", et al.". *)
Definition mla_authors_documented (names : list string) : string :=
  if (1 <? List.length names)%nat
  then drop_last_char (mla_first_author names) ++ ", et al."
  else mla_first_author names.

(** Every character of [s] satisfies [p]. *)
Fixpoint all_chars (p : ascii -> bool) (s : string) : bool :=
  match s with
  | EmptyString => true
  | String c s' => p c && all_chars p s'
  end.

(** The character before the position that [pre] leads to, [prev] being
    the one before [pre]. *)
Fixpoint last_before (prev : option ascii) (pre : string) : option ascii :=
  match pre with
  | EmptyString => prev
  | String c pre' => last_before (Some c) pre'
  end.

(** [s] starts with a character that satisfies [p]. *)
Definition holds_at_head (p : ascii -> bool) (s : string) : bool :=
  match s with
  | EmptyString => false
  | String c _ => p c
  end.

(** A four-character token 19xx or 20xx. *)
Definition year_token (y : string) : Prop :=
  exists c d : ascii,
    Py.isdigit c = true /\ Py.isdigit d = true /\
    (y = String "2" (String "0" (String c (String d EmptyString))) \/
     y = String "1" (String "9" (String c (String d EmptyString)))).

(** The occurrence [pre ++ y ++ suf] touches no word character on either
    side. *)
Definition delimited (pre suf : string) : Prop :=
  Re.is_word (last_before None pre) = false /\
  Re.is_word (Re.head suf) = false.

(** [y] is the leftmost year token of [s]. *)
Definition first_year (s y : string) : Prop :=
  exists pre suf : string,
    s = pre ++ y ++ suf /\ year_token y /\
    forall pre' y' suf' : string,
      year_token y' -> s = pre' ++ y' ++ suf' ->
      (String.length pre <= String.length pre')%nat.

Definition no_year (s : string) : Prop :=
  forall pre y suf : string, year_token y -> s <> pre ++ y ++ suf.

(** [y] is the leftmost year token of [s] among those standing between
    word boundaries. *)
Definition first_whole_year (s y : string) : Prop :=
  exists pre suf : string,
    s = pre ++ y ++ suf /\ year_token y /\ delimited pre suf /\
    forall pre' y' suf' : string,
      year_token y' -> delimited pre' suf' -> s = pre' ++ y' ++ suf' ->
      (String.length pre <= String.length pre')%nat.

Definition no_whole_year (s : string) : Prop :=
  forall pre y suf : string,
    year_token y -> delimited pre suf -> s <> pre ++ y ++ suf.

(** Year extraction as the specification has it: the page text is
    scanned with the very pattern of the meta content. *)
Definition extract_year_same_scan (now_year : Z) (soup : Soup.t)
  (html_text : string) : string :=
  let date_tag :=
    Soup.find_attr "meta" "name" "citation_publication_date" soup in
  let from_tag :=
    if Py.truthy (Soup.content date_tag)
    then Re.search Re.year_pattern None (Py.value (Soup.content date_tag))
    else None in
  match from_tag with
  | Some year_match => year_match
  | None =>
      match Re.search Re.year_pattern None html_text with
      | Some year_match => year_match
      | None => Py.str_int now_year
      end
  end.

(** "10.", at least four digits, a slash, and one or more characters, none
    of them whitespace. *)
Definition doi_token (d : string) : Prop :=
  exists digits suffix : string,
    d = "10." ++ digits ++ "/" ++ suffix /\
    all_chars Py.isdigit digits = true /\
    (4 <= String.length digits)%nat /\
    all_chars Re.not_space suffix = true /\
    (1 <= String.length suffix)%nat.

(** Nothing is trimmed: the match runs up to the next whitespace or to
    the end of the text. *)
Definition ends_run (suf : string) : Prop :=
  holds_at_head Re.not_space suf = false.

(** [d] is the match of the DOI pattern at the leftmost position of [s]
    where a DOI token starts, taken as far as it goes. *)
Definition first_doi (s d : string) : Prop :=
  exists pre suf : string,
    s = pre ++ d ++ suf /\ doi_token d /\ ends_run suf /\
    forall pre' d' suf' : string,
      doi_token d' -> s = pre' ++ d' ++ suf' ->
      (String.length pre <= String.length pre')%nat.

Definition no_doi (s : string) : Prop :=
  forall pre d suf : string, doi_token d -> s <> pre ++ d ++ suf.

(** The parsed page holds a meta tag with property og:title and content
    [X] and no other tag that the extractor reads. *)
Definition only_og_title (soup : Soup.t) (X : string) : Prop :=
  Soup.content (Soup.find_attr "meta" "property" "og:title" soup) = Some X /\
  Soup.find_all_attr "meta" "name" "citation_author" soup = [] /\
  Soup.find_attr "meta" "name" "author" soup = None /\
  Soup.find_attr "meta" "name" "citation_publication_date" soup = None /\
  Soup.find_attr "meta" "name" "citation_journal_title" soup = None /\
  Soup.find_attr "meta" "name" "citation_doi" soup = None.

(** The document of one such tag: its parse and its text. *)
Definition og_title_soup (X : string) : Soup.t :=
  [Soup.mkTag "meta" [("property", "og:title"); ("content", X)] EmptyString].

Definition og_title_html (X : string) : string :=
  "<meta property=" ++ Py.dquote ++ "og:title" ++ Py.dquote
  ++ " content=" ++ Py.dquote ++ X ++ Py.dquote ++ ">".

Definition og_title_page (X : string) : MetadataExtractor.Response :=
  MetadataExtractor.Page (og_title_soup X) (og_title_html X).

(** The record of the round trip: title [X], no authors, journal or doi,
    the current year, and the source type of a web page. *)
Definition round_trip_record (now_year : Z) (X : string)
  (r : Citation + string) : Prop :=
  exists m : Citation,
    r = inl m /\ title m = Some X /\ authors m = Some EmptyString /\
    journal m = Some EmptyString /\ doi m = Some EmptyString /\
    year m = Some (Py.str_int now_year) /\
    source_type m = Some "website".

(** The two-line header of a style and the blank line after it. *)
Definition header (style : CitationManagerApp.Style) : string :=
  "Bibliography (" ++ CitationManagerApp.style_name style ++ " Style)"
  ++ CitationManagerApp.newline
  ++ Py.repeat_char "=" 80 ++ CitationManagerApp.newline
  ++ CitationManagerApp.newline.

Definition empty_app : CitationManagerApp.App :=
  {| CitationManagerApp.citations := [];
     CitationManagerApp.style_var := CitationManagerApp.APA;
     CitationManagerApp.preview_text := EmptyString;
     CitationManagerApp.dialogs := [] |}.

Definition no_citations_to (verb : string) : CitationManagerApp.Dialog :=
  CitationManagerApp.showinfo "No Citations"
    ("No citations to " ++ verb ++ ". Add some citations first!").

(** The text after the guard is the header and then, for each record in
    the order given, its entry and a blank line, the ordinals counted
    from 1. *)
Fixpoint entries (style : CitationManagerApp.Style) (start : Z)
  (cs : list Citation) : string :=
  match cs with
  | [] => EmptyString
  | c :: cs' =>
      CitationManagerApp.formatters style c start
      ++ CitationManagerApp.newline ++ CitationManagerApp.newline
      ++ entries style (start + 1) cs'
  end.

(** [c] is the last character of [s]. *)
Fixpoint last_char_is (c : ascii) (s : string) : bool :=
  match s with
  | EmptyString => false
  | String a EmptyString => Ascii.eqb c a
  | String _ s' => last_char_is c s'
  end.

(** Inputs of the checks on concrete values. *)
Definition full_record : Citation :=
  {| title := Some "A study of things";
     authors := Some "John Q. Public, jane doe, Plato";
     year := Some "2020"; journal := Some "Nature"; volume := Some "12";
     issue := Some "3"; pages := Some "1-9"; doi := Some "10.1000/x";
     url := Some "http://e.org/"; source_type := Some "manual" |}.

Definition sample_soup : Soup.t :=
  [Soup.mkTag "title" [] " My page ";
   Soup.mkTag "meta" [("name", "citation_author"); ("content", "Ann Lee")]
     EmptyString;
   Soup.mkTag "meta" [("name", "citation_author"); ("content", EmptyString)]
     EmptyString;
   Soup.mkTag "meta" [("name", "citation_author"); ("content", "Bob Ray")]
     EmptyString].

(** ** Vocabulary of the further properties *)

(** Two records hold the same text in every field that the formatters
    read, a missing entry counting as the empty string. *)
Definition same_text (c c' : Citation) : Prop :=
  Py.value (title c) = Py.value (title c') /\
  Py.value (authors c) = Py.value (authors c') /\
  Py.value (year c) = Py.value (year c') /\
  Py.value (journal c) = Py.value (journal c') /\
  Py.value (volume c) = Py.value (volume c') /\
  Py.value (issue c) = Py.value (issue c') /\
  Py.value (pages c) = Py.value (pages c') /\
  Py.value (doi c) = Py.value (doi c') /\
  Py.value (url c) = Py.value (url c').

(** The record with another [url] entry. *)
Definition with_url (u : option string) (c : Citation) : Citation :=
  {| title := title c; authors := authors c; year := year c;
     journal := journal c; volume := volume c; issue := issue c;
     pages := pages c; doi := doi c; url := u;
     source_type := source_type c |}.

(** The record with other [volume], [issue] and [pages] entries. *)
Definition with_locators (v i p : option string) (c : Citation) : Citation :=
  {| title := title c; authors := authors c; year := year c;
     journal := journal c; volume := v; issue := i; pages := p;
     doi := doi c; url := url c; source_type := source_type c |}.

(** A name part: not empty and free of whitespace. *)
Definition name_part (w : string) : Prop :=
  w <> EmptyString /\ all_chars Re.not_space w = true.

(** A text free of commas. *)
Definition comma_free (s : string) : bool :=
  all_chars (fun c => negb (Ascii.eqb c ",")) s.

(** The contents, not empty, of the citation_author meta tags, in
    document order. *)
Definition citation_author_contents (soup : Soup.t) : list string :=
  map (fun tag => Py.value (Soup.get tag "content"))
    (filter (fun tag => Py.truthy (Soup.get tag "content"))
       (Soup.find_all_attr "meta" "name" "citation_author" soup)).

(** The operations on the database, and the ids that a run of them
    gives out, in the order of the insertions. *)
Inductive Operation : Type :=
| Add (now : string) (citation_data : Citation)
| Delete (citation_id : Z)
| Clear.

Definition apply_operation (state : CitationDatabase.t * list Z)
  (op : Operation) : CitationDatabase.t * list Z :=
  let (db, issued) := state in
  match op with
  | Add now citation_data =>
      let (db', citation_id) :=
        CitationDatabase.add_citation now citation_data db in
      (db', (issued ++ [citation_id])%list)
  | Delete citation_id =>
      (CitationDatabase.delete_citation citation_id db, issued)
  | Clear => (CitationDatabase.clear_all db, issued)
  end.

Definition operate (db : CitationDatabase.t) (ops : list Operation)
  : CitationDatabase.t * list Z :=
  fold_left apply_operation ops (db, []).

(** The ids of a list of rows. *)
Definition ids (l : list CitationDatabase.Row) : list Z :=
  map CitationDatabase.row_id l.

(** A record with a title and two authors, for the checks on concrete
    values. *)
Definition two_author_record : Citation :=
  {| title := Some "On Growth"; authors := Some "Ann Lee, Bob Ray";
     year := None; journal := None; volume := None; issue := None;
     pages := None; doi := Some "10.1000/x1"; url := None;
     source_type := None |}.

(** A segment that is not empty. *)
Definition nonempty (s : string) : Prop := s <> EmptyString.

(** The pieces of a list joined with ", " and split on ',': every piece
    but the first keeps the space. *)
Definition spaced (l : list string) : list string :=
  match l with
  | [] => [EmptyString]
  | a :: rest => a :: map (String " ") rest
  end.

(** Two lists of pieces that differ by the whitespace around each piece
    only. *)
Definition same_names (xs ys : list string) : Prop :=
  Forall2 (fun x y => Py.strip x = Py.strip y) xs ys.

(** The order of the rows by id, large and strict. *)
Definition id_le (a b : CitationDatabase.Row) : Prop :=
  (CitationDatabase.row_id a <= CitationDatabase.row_id b)%Z.

Definition id_lt (a b : CitationDatabase.Row) : Prop :=
  (CitationDatabase.row_id a < CitationDatabase.row_id b)%Z.

(** The row that [add_citation] writes. *)
Definition written_row (now : string) (citation_data : Citation)
  (db : CitationDatabase.t) : CitationDatabase.Row :=
  {| CitationDatabase.row_id := CitationDatabase.next_id db;
     CitationDatabase.row_title :=
       CitationDatabase.get_default (title citation_data) EmptyString;
     CitationDatabase.row_authors :=
       Some (CitationDatabase.get_default (authors citation_data) EmptyString);
     CitationDatabase.row_year :=
       Some (CitationDatabase.get_default (year citation_data) EmptyString);
     CitationDatabase.row_journal :=
       Some (CitationDatabase.get_default (journal citation_data) EmptyString);
     CitationDatabase.row_volume :=
       Some (CitationDatabase.get_default (volume citation_data) EmptyString);
     CitationDatabase.row_issue :=
       Some (CitationDatabase.get_default (issue citation_data) EmptyString);
     CitationDatabase.row_pages :=
       Some (CitationDatabase.get_default (pages citation_data) EmptyString);
     CitationDatabase.row_doi :=
       Some (CitationDatabase.get_default (doi citation_data) EmptyString);
     CitationDatabase.row_url :=
       Some (CitationDatabase.get_default (url citation_data) EmptyString);
     CitationDatabase.row_source_type :=
       Some (CitationDatabase.get_default (source_type citation_data)
               "website");
     CitationDatabase.row_date_added := now |}.

(** The table of a database that a run from nothing can reach: its rows
    stand in the order of their ids, which lie between 1 and the counter
    and were all given by an insertion of the run. *)
Definition kept (state : CitationDatabase.t * list Z) : Prop :=
  StronglySorted id_lt (CitationDatabase.rows (fst state)) /\
  Forall (fun r => (1 <= CitationDatabase.row_id r
                    <= CitationDatabase.sequence (fst state))%Z)
    (CitationDatabase.rows (fst state)) /\
  (0 <= CitationDatabase.sequence (fst state))%Z /\
  incl (ids (CitationDatabase.rows (fst state))) (snd state).

(** The list shows the listing of the database. *)
Definition in_sync (s : Handlers.Session) : Prop :=
  Handlers.tree s
  = map Handlers.cells (CitationDatabase.get_all_citations (Handlers.db s)).

(** The record of a manual entry. *)
Definition manual_record
  (title_entry authors_entry year_entry journal_entry doi_entry : string)
  : Citation :=
  {| title := Some (Py.strip title_entry);
     authors := Some (Py.strip authors_entry);
     year := Some (Py.strip year_entry);
     journal := Some (Py.strip journal_entry);
     doi := Some (Py.strip doi_entry);
     source_type := Some "manual";
     volume := None; issue := None; pages := None; url := None |}.

(** The row is none of the selected lines. *)
Definition not_selected (selected : list Handlers.TreeRow)
  (r : CitationDatabase.Row) : bool :=
  negb (existsb (fun item => (CitationDatabase.row_id r
                              =? Handlers.cell_id item)%Z) selected).

(** A session with two manual entries, and the line of the first. *)
Definition two_manual_rows : Handlers.Session :=
  Handlers.run None
    [Handlers.AddManual "On Growth" "Ann Lee" "1999" EmptyString EmptyString
       "2024-05-01 10:00:00";
     Handlers.AddManual "On Form" "Bob Ray" "2001" EmptyString EmptyString
       "2024-05-01 10:05:00"].

Definition first_line : Handlers.TreeRow :=
  Handlers.mkTreeRow 1 "On Growth" (Some "Ann Lee") (Some "1999").

(** What the window stores: a manual row has a title and no URL, a row
    from a page has a URL and a year; no row has a volume, an issue or
    pages. *)
Definition well_sourced (r : CitationDatabase.Row) : Prop :=
  CitationDatabase.row_volume r = Some EmptyString /\
  CitationDatabase.row_issue r = Some EmptyString /\
  CitationDatabase.row_pages r = Some EmptyString /\
  ((CitationDatabase.row_source_type r = Some "manual" /\
    CitationDatabase.row_title r <> EmptyString /\
    CitationDatabase.row_url r = Some EmptyString)
   \/
   (CitationDatabase.row_source_type r = Some "website" /\
    (exists u, CitationDatabase.row_url r = Some u /\ u <> EmptyString) /\
    (exists y, CitationDatabase.row_year r = Some y /\ y <> EmptyString))).




(** ** Lists and strings: basic facts *)

Lemma fold_append_map (f : string -> string) (xs acc : list string) :
  fold_left (fun out x => append out (f x)) xs acc = (acc ++ map f xs)%list.
Proof.
  revert acc; induction xs as [|x xs IH]; intros acc; simpl.
  - now rewrite app_nil_r.
  - rewrite IH. unfold append. now rewrite <- app_assoc.
Qed.

Lemma append_each_map (f : string -> string) (xs : list string) :
  append_each f xs = map f xs.
Proof. unfold append_each. now rewrite fold_append_map. Qed.

Lemma split_not_nil (sep : ascii) (s : string) : Py.split sep s <> [].
Proof.
  induction s as [|c s IH]; simpl; [discriminate|].
  destruct (Ascii.eqb c sep); [discriminate|].
  destruct (Py.split sep s); [contradiction|discriminate].
Qed.

Lemma split_length (sep : ascii) (s : string) :
  List.length (Py.split sep s) = S (count_char sep s).
Proof.
  induction s as [|c s IH]; simpl; [reflexivity|].
  destruct (Ascii.eqb c sep); simpl; [now rewrite IH|].
  destruct (Py.split sep s) as [|x xs] eqn:E; simpl in *; [discriminate|lia].
Qed.

Ltac split_flags c :=
  destruct (Py.truthy (title c)), (Py.truthy (journal c)),
    (Py.truthy (year c)), (Py.truthy (doi c)), (Py.truthy (url c));
  reflexivity.

Lemma vancouver_parts_authors (c : Citation) :
  Py.truthy (authors c) = true ->
  VancouverFormatter.parts c =
    vancouver_authors (Py.split "," (Py.value (authors c)))
    :: VancouverFormatter.parts (without_authors c).
Proof.
  intros H. unfold VancouverFormatter.parts, vancouver_authors.
  rewrite H, append_each_map. cbn [authors without_authors Py.truthy
    title journal year volume issue pages doi url].
  destruct (6 <? _)%nat; unfold append; cbn [app]; split_flags c.
Qed.

Lemma apa_parts_authors (c : Citation) :
  Py.truthy (authors c) = true ->
  APAFormatter.parts c =
    apa_authors (Py.split "," (Py.value (authors c)))
    :: APAFormatter.parts (without_authors c).
Proof.
  intros H. unfold APAFormatter.parts, apa_authors.
  rewrite H, append_each_map. cbn [authors without_authors Py.truthy
    title journal year volume issue pages doi url].
  destruct (20 <? _)%nat; [|destruct (1 <? _)%nat];
    unfold append; cbn [app]; split_flags c.
Qed.

Lemma mla_parts_authors (c : Citation) :
  Py.truthy (authors c) = true ->
  MLAFormatter.parts c =
    mla_authors (Py.split "," (Py.value (authors c)))
    :: MLAFormatter.parts (without_authors c).
Proof.
  intros H. unfold MLAFormatter.parts, mla_authors, mla_first_author.
  rewrite H. cbn [authors without_authors Py.truthy
    title journal year volume issue pages doi url].
  pose proof (split_not_nil "," (Py.value (authors c))) as Hne.
  destruct (Py.split "," (Py.value (authors c))) as [|a rest]; [contradiction|].
  cbn [hd].
  replace (0 <? List.length (a :: rest))%nat with true by reflexivity.
  destruct (2 <=? List.length (Py.words (Py.strip a)))%nat;
    destruct rest as [|b rest];
    unfold append, MLAFormatter.set_last, but_last, last_item;
    cbn [app List.length Nat.ltb Nat.leb removelast last]; split_flags c.
Qed.

(** ** The formatters: author lists *)

Lemma last_map_default (f : string -> string) (l : list string) (d : string) :
  l <> [] -> last (map f l) d = f (last l d).
Proof.
  induction l as [|a l IH]; intros Hne; [contradiction|].
  destruct l as [|b l]; [reflexivity|].
  change (last (map f (b :: l)) d = f (last (b :: l) d)).
  apply IH; discriminate.
Qed.

Lemma last_firstn_nth (l : list string) (n : nat) (d : string) :
  (n < List.length l)%nat -> last (firstn (S n) l) d = nth n l d.
Proof.
  revert l; induction n as [|n IH]; intros l H.
  - destruct l as [|a l]; simpl in *; [lia|]. now destruct l.
  - destruct l as [|a l]; simpl in H; [lia|].
    assert (Hn : (n < List.length l)%nat) by lia.
    specialize (IH l Hn).
    destruct l as [|b l]; [simpl in Hn; lia|].
    change (nth (S n) (a :: b :: l) d) with (nth n (b :: l) d).
    rewrite <- IH. reflexivity.
Qed.

Lemma removelast_map (f : string -> string) (l : list string) :
  removelast (map f l) = map f (removelast l).
Proof.
  induction l as [|a l IH]; [reflexivity|].
  destruct l as [|b l]; [reflexivity|].
  change (f a :: removelast (map f (b :: l)) = f a :: map f (removelast (b :: l))).
  now rewrite IH.
Qed.

(** What [APAFormatter] renders for more than 20 pieces: the first 19 and
    then the twentieth, the last of the 20 it kept. *)
Lemma apa_authors_over_20 (names : list string) :
  (20 < List.length names)%nat ->
  apa_authors names =
    Py.join ", " (map APAFormatter.format_author (firstn 19 names))
    ++ ", ... " ++ APAFormatter.format_author (nth 19 names EmptyString).
Proof.
  intros H. unfold apa_authors, last_item.
  destruct (Nat.ltb_spec 20 (List.length names)) as [_|]; [|lia].
  rewrite firstn_map, firstn_firstn. cbn [Nat.min].
  replace (Init.Nat.min 19 20) with 19%nat by reflexivity.
  rewrite <- (last_firstn_nth names 19 EmptyString) by lia.
  assert (Hne : firstn 20 names <> []).
  { destruct names; simpl in *; [lia|discriminate]. }
  pose proof (last_map_default APAFormatter.format_author (firstn 20 names)
                EmptyString Hne) as HL.
  rewrite <- HL. reflexivity.
Qed.

(** For at most 20 pieces nothing is cut. *)
Lemma apa_authors_upto_20 (names : list string) :
  (List.length names <= 20)%nat ->
  apa_authors names =
    if (1 <? List.length names)%nat then
      Py.join ", " (map APAFormatter.format_author (but_last names))
      ++ ", & " ++ APAFormatter.format_author (last_item names)
    else APAFormatter.format_author (hd EmptyString names).
Proof.
  intros H. unfold apa_authors, last_item, but_last.
  destruct (Nat.ltb_spec 20 (List.length names)) as [|_]; [lia|].
  rewrite (firstn_all2 names H), length_map.
  destruct names as [|a names]; [reflexivity|].
  destruct names as [|b names]; [reflexivity|].
  replace (1 <? List.length (a :: b :: names))%nat with true by reflexivity.
  rewrite removelast_map.
  rewrite (last_map_default _ (a :: b :: names) EmptyString) by discriminate.
  reflexivity.
Qed.

(** C3: for a record with authors, the Vancouver formatter renders exactly
    the first 6 formatted names joined with ", " and then ", et al." when
    the authors string splits on ',' into more than 6 pieces, and all of
    them joined with ", " and then a period when it splits into 6 or
    fewer; the segment opens the entry after the ordinal label. *)
Theorem vancouver_author_cap (c : Citation) (index : Z) :
  Py.truthy (authors c) = true ->
  let names := Py.split "," (Py.value (authors c)) in
  let rest := VancouverFormatter.parts (without_authors c) in
  ((6 < List.length names)%nat ->
     List.length (firstn 6 names) = 6%nat /\
     VancouverFormatter.format_citation c index =
       Py.str_int index ++ ". "
       ++ Py.join " "
            ((Py.join ", "
                (map VancouverFormatter.format_author (firstn 6 names))
              ++ ", et al.") :: rest))
  /\
  ((List.length names <= 6)%nat ->
     VancouverFormatter.format_citation c index =
       Py.str_int index ++ ". "
       ++ Py.join " "
            ((Py.join ", " (map VancouverFormatter.format_author names)
              ++ ".") :: rest)).
Proof.
  intros H names rest. unfold VancouverFormatter.format_citation.
  rewrite (vancouver_parts_authors c H). fold names. fold rest.
  unfold vancouver_authors. split; intros Hlen.
  - split; [apply firstn_length_le; lia|].
    destruct (Nat.ltb_spec 6 (List.length names)); [reflexivity|lia].
  - destruct (Nat.ltb_spec 6 (List.length names)); [lia|].
    now rewrite (firstn_all2 names Hlen).
Qed.

Lemma vancouver_author_cap_witness :
  Py.truthy (authors seven_authors) = true /\
  VancouverFormatter.format_citation seven_authors 1 =
    "1. Lee A, Ray B, Dow C, Poe D, Kim E, Orr F, et al.".
Proof.
  split; [reflexivity|].
  destruct (vancouver_author_cap seven_authors 1 eq_refl) as [Hmore _].
  destruct Hmore as [_ Hout]; [vm_compute; lia|].
  rewrite Hout. reflexivity.
Defined.

(** C10: in every formatter the count behind the truncation and et-al
    decisions is the number of pieces of the authors string split on ',',
    empty pieces included, that is the number of commas plus one; so six
    names and a trailing comma make seven pieces and the Vancouver
    formatter ends the six names with ", et al.". *)
Theorem author_count_is_piece_count :
  (forall (c : Citation) (index : Z),
     Py.truthy (authors c) = true ->
     let s := Py.value (authors c) in
     let names := Py.split "," s in
     let n := S (count_char "," s) in
     List.length names = n /\
     VancouverFormatter.format_citation c index =
       Py.str_int index ++ ". "
       ++ Py.join " "
            ((Py.join ", "
                (map VancouverFormatter.format_author (firstn 6 names))
              ++ (if (6 <? n)%nat then ", et al." else "."))
             :: VancouverFormatter.parts (without_authors c)) /\
     APAFormatter.format_citation c index =
       Py.join " "
         ((if (20 <? n)%nat then
             Py.join ", " (map APAFormatter.format_author (firstn 19 names))
             ++ ", ... "
             ++ APAFormatter.format_author (nth 19 names EmptyString)
           else if (1 <? n)%nat then
             Py.join ", " (map APAFormatter.format_author (but_last names))
             ++ ", & " ++ APAFormatter.format_author (last_item names)
           else APAFormatter.format_author (hd EmptyString names))
          :: APAFormatter.parts (without_authors c)) /\
     MLAFormatter.format_citation c index =
       Py.join " "
         ((if (1 <? n)%nat
           then Py.rstrip_char "." (mla_first_author names) ++ ", et al."
           else mla_first_author names)
          :: MLAFormatter.parts (without_authors c)))
  /\
  List.length (Py.split "," (Py.value (authors six_names_trailing_comma)))
    = 7%nat /\
  VancouverFormatter.format_citation six_names_trailing_comma 1 =
    "1. Lee A, Ray B, Dow C, Poe D, Kim E, Orr F, et al.".
Proof.
  split; [|split; reflexivity].
  intros c index H s names n.
  assert (Hn : List.length names = n) by apply split_length.
  split; [exact Hn|]. rewrite <- Hn.
  unfold VancouverFormatter.format_citation, APAFormatter.format_citation,
    MLAFormatter.format_citation.
  rewrite (vancouver_parts_authors c H), (apa_parts_authors c H),
    (mla_parts_authors c H).
  fold s. fold names. split; [reflexivity|]. split; [|reflexivity].
  f_equal. f_equal.
  destruct (Nat.ltb_spec 20 (List.length names)) as [Hgt|Hle].
  - now apply apa_authors_over_20.
  - rewrite (apa_authors_upto_20 names Hle). reflexivity.
Qed.

Lemma string_of_uint_chars (u : Decimal.uint) :
  all_chars label_char (NilEmpty.string_of_uint u) = true.
Proof. induction u; simpl; auto. Qed.

Lemma str_int_chars (i : Z) : all_chars label_char (Py.str_int i) = true.
Proof.
  unfold Py.str_int, NilZero.string_of_int, NilZero.string_of_uint.
  destruct (Z.to_int i) as [u|u]; destruct u; simpl;
    try reflexivity; apply string_of_uint_chars.
Qed.

Lemma str_int_inj (i j : Z) : Py.str_int i = Py.str_int j -> i = j.
Proof.
  intros H. apply DecimalZ.to_int_inj.
  assert (N : forall z, Z.to_int z <> Decimal.Pos Decimal.Nil /\
                        Z.to_int z <> Decimal.Neg Decimal.Nil).
  { intros [|p|p]; simpl; split; try discriminate;
      intros [= E]; now apply (Unsigned.to_uint_nonnil p). }
  destruct (N i) as [Pi Ni], (N j) as [Pj Nj].
  pose proof (NilZero.isi (Z.to_int i) Pi Ni) as Ei.
  pose proof (NilZero.isi (Z.to_int j) Pj Nj) as Ej.
  unfold Py.str_int in H. rewrite H in Ei. rewrite Ei in Ej.
  now injection Ej.
Qed.

Lemma label_prefix_unique (a b x y : string) :
  all_chars label_char a = true -> all_chars label_char b = true ->
  a ++ String "." x = b ++ String "." y -> a = b.
Proof.
  revert b; induction a as [|c a IH]; intros [|d b] Ha Hb E; simpl in *.
  - reflexivity.
  - injection E as <- _. discriminate.
  - injection E as -> _. discriminate.
  - injection E as <- E.
    apply andb_true_iff in Ha as [_ Ha], Hb as [_ Hb].
    now rewrite (IH b Ha Hb E).
Qed.

(** C9: the APA and the MLA formatter return the same string for any two
    ordinals; the Vancouver formatter returns the ordinal in decimal, then
    ". ", then a remainder that does not depend on the ordinal, so that
    two ordinals give the same entry only if they are equal. *)
Theorem ordinal_only_labels_vancouver (c : Citation) :
  (forall i j : Z,
     APAFormatter.format_citation c i = APAFormatter.format_citation c j /\
     MLAFormatter.format_citation c i = MLAFormatter.format_citation c j)
  /\
  (exists remainder : string,
     forall i : Z,
       VancouverFormatter.format_citation c i
       = Py.str_int i ++ ". " ++ remainder)
  /\
  (forall i j : Z,
     VancouverFormatter.format_citation c i
     = VancouverFormatter.format_citation c j -> i = j).
Proof.
  split; [intros i j; split; reflexivity|]. split.
  - exists (Py.join " " (VancouverFormatter.parts c)). intros i. reflexivity.
  - intros i j E. unfold VancouverFormatter.format_citation in E.
    apply str_int_inj.
    exact (label_prefix_unique _ _ _ _ (str_int_chars i) (str_int_chars j) E).
Qed.

(** C2, as stated, fails for the Vancouver formatter: the record with no
    field at all is rendered as the ordinal label, not as the empty
    string. *)
Lemma vancouver_not_title_only :
  ~ renders_title_only VancouverFormatter.format_citation.
Proof.
  intros H.
  destruct (H empty_record 1%Z) as [_ Hempty].
  - repeat split.
  - specialize (Hempty eq_refl). vm_compute in Hempty. discriminate.
Qed.

(** C2, amended: on a record whose authors, year, journal, volume, issue,
    pages, doi and url are all empty, the APA formatter returns the title
    and a period, the MLA formatter the title and a period inside double
    quotes, and the Vancouver formatter the ordinal label and then the
    title and a period; when the title is empty too, APA and MLA return
    the empty string and Vancouver the ordinal label alone. *)
Theorem title_only_rendering (c : Citation) (index : Z) :
  title_at_most c ->
  APAFormatter.format_citation c index =
    (if Py.truthy (title c) then Py.value (title c) ++ "." else EmptyString)
  /\
  MLAFormatter.format_citation c index =
    (if Py.truthy (title c)
     then Py.dquote ++ Py.value (title c) ++ "." ++ Py.dquote
     else EmptyString)
  /\
  VancouverFormatter.format_citation c index =
    Py.str_int index ++ ". "
    ++ (if Py.truthy (title c) then Py.value (title c) ++ "."
        else EmptyString).
Proof.
  intros (Ha & Hy & Hj & Hv & Hi & Hp & Hd & Hu).
  unfold APAFormatter.format_citation, MLAFormatter.format_citation,
    VancouverFormatter.format_citation, APAFormatter.parts,
    MLAFormatter.parts, VancouverFormatter.parts.
  rewrite Ha, Hy, Hj, Hd, Hu.
  destruct (Py.truthy (title c)); repeat split; reflexivity.
Qed.

Lemma title_only_rendering_witness :
  title_at_most title_only_record /\
  APAFormatter.format_citation title_only_record 3 = "On Growth." /\
  MLAFormatter.format_citation title_only_record 3
    = Py.dquote ++ "On Growth." ++ Py.dquote /\
  VancouverFormatter.format_citation title_only_record 3 = "3. On Growth.".
Proof.
  assert (H : title_at_most title_only_record) by (repeat split).
  split; [exact H|].
  exact (title_only_rendering title_only_record 3 H).
Defined.

(** C1: on a record of 21 authors the APA formatter renders the first 19
    names, the ellipsis and then the twentieth author, where the claim
    has the last author of the full list, the twenty-first. *)
Theorem apa_over_twenty_ends_with_twentieth :
  let names := Py.split "," (Py.value (authors twenty_one_authors)) in
  List.length names = 21%nat /\
  APAFormatter.format_citation twenty_one_authors 1 =
    "Aa, A., Bb, B., Cc, C., Dd, D., Ee, E., Ff, F., Gg, G., Hh, H., "
    ++ "Ii, I., Jj, J., Kk, K., Ll, L., Mm, M., Nn, N., Oo, O., Pp, P., "
    ++ "Qq, Q., Rr, R., Ss, S., ... Tt, T." /\
  APAFormatter.format_author (nth 19 names EmptyString) = "Tt, T." /\
  APAFormatter.format_author (last_item names) = "Uu, U." /\
  apa_authors_documented names =
    "Aa, A., Bb, B., Cc, C., Dd, D., Ee, E., Ff, F., Gg, G., Hh, H., "
    ++ "Ii, I., Jj, J., Kk, K., Ll, L., Mm, M., Nn, N., Oo, O., Pp, P., "
    ++ "Qq, Q., Rr, R., Ss, S., ... Uu, U." /\
  APAFormatter.format_citation twenty_one_authors 1
    <> apa_authors_documented names.
Proof.
  cbv zeta. repeat split; try reflexivity.
  vm_compute. discriminate.
Qed.

(** C4: for the two authors "John Q. Public, Jane Doe" the MLA formatter
    renders the first author as "Public, John Q.." and then strips every
    trailing period, the one of the initial too, before ", et al.", where
    the claim strips the one trailing period. *)
Theorem mla_et_al_strips_all_periods :
  let names := Py.split "," (Py.value (authors initial_before_surname)) in
  mla_first_author names = "Public, John Q.." /\
  MLAFormatter.format_citation initial_before_surname 1
    = "Public, John Q, et al." /\
  mla_authors_documented names = "Public, John Q., et al." /\
  MLAFormatter.format_citation initial_before_surname 1
    <> mla_authors_documented names.
Proof.
  cbv zeta. repeat split; try reflexivity.
  vm_compute. discriminate.
Qed.

(** ** Strings: concatenation and runs *)

Lemma append_nil_r (s : string) : s ++ EmptyString = s.
Proof. induction s as [|c s IH]; simpl; [reflexivity|now rewrite IH]. Qed.

Lemma append_assoc (a b c : string) : (a ++ b) ++ c = a ++ b ++ c.
Proof. induction a as [|x a IH]; simpl; [reflexivity|now rewrite IH]. Qed.

Lemma length_append (a b : string) :
  String.length (a ++ b) = (String.length a + String.length b)%nat.
Proof. induction a as [|x a IH]; simpl; [reflexivity|now rewrite IH]. Qed.

Lemma span_spec (p : ascii -> bool) (s : string) :
  s = fst (Re.span p s) ++ snd (Re.span p s) /\
  all_chars p (fst (Re.span p s)) = true /\
  holds_at_head p (snd (Re.span p s)) = false.
Proof.
  induction s as [|c s IH]; simpl; [repeat split|].
  destruct (p c) eqn:Hc.
  - destruct (Re.span p s) as [a b]; simpl in *.
    destruct IH as (E & Ha & Hb). repeat split.
    + now rewrite <- E.
    + now rewrite Hc.
    + exact Hb.
  - simpl. now rewrite Hc.
Qed.

Lemma span_app (p : ascii -> bool) (a b : string) :
  all_chars p a = true ->
  Re.span p (a ++ b) = (a ++ fst (Re.span p b), snd (Re.span p b)).
Proof.
  induction a as [|c a IH]; simpl; intros H.
  - now destruct (Re.span p b).
  - apply andb_true_iff in H as [Hc Ha]. rewrite Hc, (IH Ha). reflexivity.
Qed.

Lemma span_stop (p : ascii -> bool) (b : string) :
  holds_at_head p b = false -> Re.span p b = (EmptyString, b).
Proof.
  destruct b as [|c b]; simpl; intros H; [reflexivity|now rewrite H].
Qed.

(** ** Leftmost match *)

(** [Re.search] returns the match at the leftmost position where the
    pattern matches, and nothing only if it matches nowhere. *)
Lemma search_spec (m : option ascii -> string -> option string)
  (s : string) (prev : option ascii) :
  match Re.search m prev s with
  | Some r =>
      exists pre suf : string,
        s = pre ++ suf /\ m (last_before prev pre) suf = Some r /\
        forall pre' suf' : string,
          s = pre' ++ suf' ->
          (String.length pre' < String.length pre)%nat ->
          m (last_before prev pre') suf' = None
  | None =>
      forall pre suf : string,
        s = pre ++ suf -> m (last_before prev pre) suf = None
  end.
Proof.
  revert prev; induction s as [|c s IH]; intros prev; simpl.
  - destruct (m prev EmptyString) eqn:E.
    + exists EmptyString, EmptyString. repeat split; [exact E|].
      intros pre' suf' _ Hlt. simpl in Hlt. lia.
    + intros pre suf H. destruct pre; [|discriminate].
      simpl in H. subst suf. exact E.
  - destruct (m prev (String c s)) eqn:E.
    + exists EmptyString, (String c s). repeat split; [exact E|].
      intros pre' suf' _ Hlt. simpl in Hlt. lia.
    + specialize (IH (Some c)).
      destruct (Re.search m (Some c) s) as [r|].
      * destruct IH as (pre & suf & Hs & Hm & Hleft).
        exists (String c pre), suf. repeat split.
        -- simpl. now rewrite Hs.
        -- exact Hm.
        -- intros pre' suf' Hs' Hlt.
           destruct pre' as [|c' pre'].
           ++ simpl in Hs'. subst suf'. exact E.
           ++ simpl in Hs'. injection Hs' as Hc Hs'. subst c'.
              simpl. apply Hleft; [exact Hs'|]. simpl in Hlt. lia.
      * intros pre suf Hs. destruct pre as [|c' pre].
        -- simpl in Hs. subst suf. exact E.
        -- simpl in Hs. injection Hs as Hc Hs. subst c'.
           simpl. now apply IH.
Qed.

(** ** Year tokens *)

Lemma year_at_sound (s y : string) :
  Re.year_at s = Some y -> year_token y /\ exists rest, s = y ++ rest.
Proof.
  unfold Re.year_at.
  destruct s as [|a [|b [|c [|d rest]]]]; try discriminate.
  destruct (_ && Py.isdigit d) eqn:E; [|discriminate].
  intros [= <-].
  apply andb_true_iff in E as [E Hd]. apply andb_true_iff in E as [E Hc].
  split; [|now exists rest].
  exists c, d. repeat split; try assumption.
  apply orb_true_iff in E as [E|E]; apply andb_true_iff in E as [Ea Eb];
    apply Ascii.eqb_eq in Ea, Eb; subst a b; [left|right]; reflexivity.
Qed.

Lemma year_at_complete (y rest : string) :
  year_token y -> Re.year_at (y ++ rest) = Some y.
Proof.
  intros (c & d & Hc & Hd & [->| ->]); simpl; now rewrite Hc, Hd.
Qed.

Lemma digit_is_word (c : ascii) : Py.isdigit c = true -> Py.isword c = true.
Proof. intros H. unfold Py.isword. now rewrite H. Qed.

Lemma year_token_shape (y : string) :
  year_token y ->
  exists a b c d : ascii,
    y = String a (String b (String c (String d EmptyString))) /\
    Py.isword a = true /\ Py.isword d = true.
Proof.
  intros (c & d & Hc & Hd & [->| ->]);
    [exists "2"%char, "0"%char, c, d | exists "1"%char, "9"%char, c, d];
    repeat split; try reflexivity; now apply digit_is_word.
Qed.

Lemma year_word_sound (prev : option ascii) (s y : string) :
  Re.year_word_pattern prev s = Some y ->
  year_token y /\
  exists rest, s = y ++ rest /\ Re.is_word prev = false /\
               Re.is_word (Re.head rest) = false.
Proof.
  unfold Re.year_word_pattern.
  destruct (Re.word_boundary prev (Re.head s)) eqn:B1; [|discriminate].
  destruct s as [|a [|b [|c [|d rest]]]]; try discriminate.
  destruct (Re.year_at _) as [y'|] eqn:E; [|discriminate].
  destruct (Re.word_boundary (Some d) (Re.head rest)) eqn:B2; [|discriminate].
  intros [= <-].
  destruct (year_at_sound _ _ E) as [Hy (rest' & Hs)].
  split; [exact Hy|].
  destruct (year_token_shape _ Hy) as (a' & b' & c' & d' & -> & Wa & Wd).
  simpl in Hs. injection Hs as -> -> -> -> <-.
  exists rest. split; [reflexivity|].
  unfold Re.word_boundary in B1, B2. simpl in B1, B2.
  rewrite Wa in B1. rewrite Wd in B2.
  split.
  - now destruct (Re.is_word prev).
  - now destruct (Re.is_word (Re.head rest)).
Qed.

Lemma year_word_complete (prev : option ascii) (y rest : string) :
  year_token y -> Re.is_word prev = false ->
  Re.is_word (Re.head rest) = false ->
  Re.year_word_pattern prev (y ++ rest) = Some y.
Proof.
  intros Hy Hp Hr.
  pose proof (year_at_complete y rest Hy) as E.
  destruct (year_token_shape _ Hy) as (a & b & c & d & -> & Wa & Wd).
  unfold Re.year_word_pattern. simpl in E |- *.
  unfold Re.word_boundary. simpl.
  rewrite Hp, Wa, Wd, Hr. simpl.
  unfold Re.year_at in E. now rewrite E.
Qed.

Lemma year_search_first (s : string) :
  match Re.search Re.year_pattern None s with
  | Some y => first_year s y
  | None => no_year s
  end.
Proof.
  pose proof (search_spec Re.year_pattern s None) as H.
  destruct (Re.search Re.year_pattern None s) as [y|].
  - destruct H as (pre & suf & Hs & Hm & Hleft).
    destruct (year_at_sound _ _ Hm) as [Hy (rest & ->)].
    exists pre, rest. repeat split; [exact Hs|exact Hy|].
    intros pre' y' suf' Hy' Hs'.
    destruct (Nat.le_gt_cases (String.length pre) (String.length pre'))
      as [Hle|Hlt]; [exact Hle|].
    specialize (Hleft pre' (y' ++ suf') Hs' Hlt).
    unfold Re.year_pattern in Hleft.
    rewrite (year_at_complete y' suf' Hy') in Hleft. discriminate.
  - intros pre y suf Hy Hs. specialize (H pre (y ++ suf) Hs).
    unfold Re.year_pattern in H.
    rewrite (year_at_complete y suf Hy) in H. discriminate.
Qed.

Lemma year_word_search_first (s : string) :
  match Re.search Re.year_word_pattern None s with
  | Some y => first_whole_year s y
  | None => no_whole_year s
  end.
Proof.
  pose proof (search_spec Re.year_word_pattern s None) as H.
  destruct (Re.search Re.year_word_pattern None s) as [y|].
  - destruct H as (pre & suf & Hs & Hm & Hleft).
    destruct (year_word_sound _ _ _ Hm) as [Hy (rest & -> & Hp & Hr)].
    exists pre, rest. repeat split; try assumption.
    intros pre' y' suf' Hy' [Hp' Hr'] Hs'.
    destruct (Nat.le_gt_cases (String.length pre) (String.length pre'))
      as [Hle|Hlt]; [exact Hle|].
    specialize (Hleft pre' (y' ++ suf') Hs' Hlt).
    rewrite (year_word_complete _ y' suf' Hy' Hp' Hr') in Hleft.
    discriminate.
  - intros pre y suf Hy [Hp Hr] Hs. specialize (H pre (y ++ suf) Hs).
    rewrite (year_word_complete _ y suf Hy Hp Hr) in H. discriminate.
Qed.

(** ** Year extraction *)

(** C5, as stated, fails: in a page text where the only 19xx or 20xx run
    of digits stands inside a longer run, the scan of the text finds
    nothing and the current year is returned. *)
Lemma year_text_scan_differs :
  MetadataExtractor._extract_year 2026 [] "id=120193"
  <> extract_year_same_scan 2026 [] "id=120193".
Proof. vm_compute. discriminate. Qed.

(** C5, amended: year extraction returns the leftmost 19xx or 20xx token
    of the content of the first citation_publication_date meta tag; else
    the leftmost such token of the full page text that stands between
    word boundaries (no letter, digit or underscore next to it); else the
    current calendar year in decimal.  Each scan returns the leftmost
    match, whatever follows it. *)
Theorem year_fallback_chain (now_year : Z) (soup : Soup.t)
  (html_text : string) :
  let content :=
    Soup.content
      (Soup.find_attr "meta" "name" "citation_publication_date" soup) in
  let result := MetadataExtractor._extract_year now_year soup html_text in
  (Py.truthy content = true /\ first_year (Py.value content) result)
  \/
  ((Py.truthy content = false \/ no_year (Py.value content)) /\
   first_whole_year html_text result)
  \/
  ((Py.truthy content = false \/ no_year (Py.value content)) /\
   no_whole_year html_text /\ result = Py.str_int now_year).
Proof.
  intros content result. subst result.
  unfold MetadataExtractor._extract_year. fold content.
  pose proof (year_search_first (Py.value content)) as Hc.
  pose proof (year_word_search_first html_text) as Ht.
  destruct (Py.truthy content) eqn:T.
  - destruct (Re.search Re.year_pattern None (Py.value content)) as [y|].
    + left. split; [reflexivity|exact Hc].
    + right.
      destruct (Re.search Re.year_word_pattern None html_text) as [y|].
      * left. split; [right; exact Hc|exact Ht].
      * right. repeat split; [right; exact Hc|exact Ht].
  - right.
    destruct (Re.search Re.year_word_pattern None html_text) as [y|].
    + left. split; [left; reflexivity|exact Ht].
    + right. repeat split; [left; reflexivity|exact Ht].
Qed.

(** ** DOI tokens *)

Lemma doi_at_sound (s d : string) :
  Re.doi_at s = Some d ->
  doi_token d /\ exists rest, s = d ++ rest /\ ends_run rest.
Proof.
  unfold Re.doi_at.
  destruct s as [|a [|b [|c r]]]; try discriminate.
  destruct (_ && (c =? ".")%char) eqn:E; [|discriminate].
  apply andb_true_iff in E as [E Ec]. apply andb_true_iff in E as [Ea Eb].
  apply Ascii.eqb_eq in Ea, Eb, Ec. subst a b c.
  destruct (span_spec Py.isdigit r) as (Hr & Hd & _).
  destruct (Re.span Py.isdigit r) as [digits r1]. simpl in Hr, Hd.
  destruct (4 <=? String.length digits)%nat eqn:L4; [|discriminate].
  destruct r1 as [|e r2]; [discriminate|].
  destruct (e =? "/")%char eqn:Ee; [|discriminate].
  apply Ascii.eqb_eq in Ee. subst e.
  destruct (span_spec Re.not_space r2) as (Hr2 & Hs & Hstop).
  destruct (Re.span Re.not_space r2) as [suffix rest]. simpl in Hr2, Hs, Hstop.
  destruct (1 <=? String.length suffix)%nat eqn:L1; [|discriminate].
  intros [= <-].
  apply Nat.leb_le in L4, L1.
  split.
  - exists digits, suffix. repeat split; assumption.
  - exists rest. split; [|exact Hstop].
    rewrite Hr, Hr2. simpl.
    rewrite append_assoc. reflexivity.
Qed.

Lemma doi_at_complete (d rest : string) :
  doi_token d -> exists d', Re.doi_at (d ++ rest) = Some d'.
Proof.
  intros (digits & suffix & -> & Hd & L4 & Hs & L1).
  simpl. rewrite !append_assoc.
  rewrite (span_app Py.isdigit digits _ Hd). simpl.
  rewrite append_nil_r.
  destruct (String.length digits) as [|[|[|[|n]]]]; try lia.
  rewrite (span_app Re.not_space suffix rest Hs).
  destruct (Re.span Re.not_space rest) as [more rest']. simpl.
  rewrite length_append.
  destruct (String.length suffix) as [|k]; [lia|].
  simpl. eexists. reflexivity.
Qed.

Lemma doi_search_first (s : string) :
  match Re.search Re.doi_pattern None s with
  | Some d => first_doi s d
  | None => no_doi s
  end.
Proof.
  pose proof (search_spec Re.doi_pattern s None) as H.
  destruct (Re.search Re.doi_pattern None s) as [d|].
  - destruct H as (pre & suf & Hs & Hm & Hleft).
    destruct (doi_at_sound _ _ Hm) as [Hd (rest & -> & Hrun)].
    exists pre, rest. repeat split; try assumption.
    intros pre' d' suf' Hd' Hs'.
    destruct (Nat.le_gt_cases (String.length pre) (String.length pre'))
      as [Hle|Hlt]; [exact Hle|].
    specialize (Hleft pre' (d' ++ suf') Hs' Hlt).
    destruct (doi_at_complete d' suf' Hd') as [x Hx].
    unfold Re.doi_pattern in Hleft. rewrite Hx in Hleft. discriminate.
  - intros pre d suf Hd Hs. specialize (H pre (d ++ suf) Hs).
    destruct (doi_at_complete d suf Hd) as [x Hx].
    unfold Re.doi_pattern in H. rewrite Hx in H. discriminate.
Qed.

(** ** DOI extraction *)

Lemma space_facts (c : ascii) :
  Py.isspace c = true ->
  Py.isdigit c = false /\ Re.not_space c = false /\
  (c =? "1")%char = false /\ (c =? "0")%char = false /\
  (c =? ".")%char = false /\ (c =? "/")%char = false.
Proof.
  destruct c as [b0 b1 b2 b3 b4 b5 b6 b7].
  destruct b0, b1, b2, b3, b4, b5, b6, b7; vm_compute;
    intros H; try discriminate H; repeat split.
Qed.







(** ** Extraction from a page with an og:title tag only *)

(** C7, as stated, fails: the year is scanned in the whole page text, the
    title included, so a title that mentions a year sets the year. *)
Lemma og_title_year_from_title :
  ~ round_trip_record 2026 "Best of 2020"
      (MetadataExtractor.extract_from_url
         (fun _ => og_title_page "Best of 2020") 2026 "http://example.org/").
Proof.
  intros (m & Hm & _ & _ & _ & _ & Hy & _).
  vm_compute in Hm. injection Hm as <-. vm_compute in Hy. discriminate.
Qed.

Lemma no_whole_year_search (s : string) :
  no_whole_year s -> Re.search Re.year_word_pattern None s = None.
Proof.
  intros H. pose proof (year_word_search_first s) as F.
  destruct (Re.search Re.year_word_pattern None s) as [y|]; [|reflexivity].
  destruct F as (pre & suf & E & Hy & Hd & _). now destruct (H pre y suf).
Qed.

Lemma no_doi_search (s : string) :
  no_doi s -> Re.search Re.doi_pattern None s = None.
Proof.
  intros H. pose proof (doi_search_first s) as F.
  destruct (Re.search Re.doi_pattern None s) as [d|]; [|reflexivity].
  destruct F as (pre & suf & E & Hd & _). now destruct (H pre d suf).
Qed.

(** C7, amended: extracting from a page that holds a meta tag with
    property og:title and a content X that is not empty, and no other
    recognized tag, yields title X, empty authors, journal and doi, the
    source type website, and the current calendar year, provided the page
    text (X included) holds no 19xx or 20xx token between word boundaries
    and no DOI token. *)
Theorem og_title_round_trip (get : string -> MetadataExtractor.Response)
  (now_year : Z) (url : string) (soup : Soup.t) (html_text X : string) :
  get url = MetadataExtractor.Page soup html_text ->
  only_og_title soup X ->
  X <> EmptyString ->
  no_whole_year html_text ->
  no_doi html_text ->
  round_trip_record now_year X
    (MetadataExtractor.extract_from_url get now_year url).
Proof.
  intros Hget (Ht & Ha & Hau & Hd & Hj & Hdoi) HX Hny Hnd.
  unfold MetadataExtractor.extract_from_url. rewrite Hget.
  eexists. split; [reflexivity|]. cbn [title authors journal doi year source_type].
  repeat split.
  - unfold MetadataExtractor._extract_title. rewrite Ht.
    destruct X; [contradiction|reflexivity].
  - unfold MetadataExtractor._extract_authors. rewrite Ha, Hau. reflexivity.
  - unfold MetadataExtractor._extract_journal. rewrite Hj. reflexivity.
  - unfold MetadataExtractor._extract_doi. rewrite Hdoi.
    cbn [Soup.content Py.truthy]. now rewrite (no_doi_search _ Hnd).
  - unfold MetadataExtractor._extract_year. rewrite Hd.
    cbn [Soup.content Py.truthy]. now rewrite (no_whole_year_search _ Hny).
Qed.

Lemma og_title_round_trip_witness :
  only_og_title (og_title_soup "X") "X" /\
  "X" <> EmptyString /\
  no_whole_year (og_title_html "X") /\
  no_doi (og_title_html "X") /\
  round_trip_record 2026 "X"
    (MetadataExtractor.extract_from_url
       (fun _ => og_title_page "X") 2026 "http://example.org/").
Proof.
  assert (H1 : only_og_title (og_title_soup "X") "X") by (repeat split).
  assert (H2 : "X" <> EmptyString) by discriminate.
  assert (H3 : no_whole_year (og_title_html "X"))
    by exact (year_word_search_first (og_title_html "X")).
  assert (H4 : no_doi (og_title_html "X"))
    by exact (doi_search_first (og_title_html "X")).
  repeat (split; [assumption|]).
  exact (og_title_round_trip (fun _ => og_title_page "X") 2026
           "http://example.org/" (og_title_soup "X") (og_title_html "X") "X"
           eq_refl H1 H2 H3 H4).
Defined.

(** ** Preview and export of a bibliography *)

(** C8, as stated, fails: with no record the preview returns before it
    writes anything, so the pane does not hold the header. *)
Lemma preview_of_nothing_has_no_header :
  CitationManagerApp.preview_text
    (CitationManagerApp.preview_bibliography empty_app)
  <> header (CitationManagerApp.style_var empty_app).
Proof. vm_compute. discriminate. Qed.

(** C8, amended: previewing or exporting over an empty sequence of records
    does not fail and renders nothing, not even the header: the preview
    pane keeps its text, no file is written, and the one effect is the
    "No Citations" notice. *)
Theorem empty_bibliography_renders_nothing
  (app : CitationManagerApp.App) (asksaveasfilename : string -> string)
  (open_error : option string) :
  CitationManagerApp.citations app = [] ->
  let previewed := CitationManagerApp.preview_bibliography app in
  let exported :=
    CitationManagerApp.export_bibliography asksaveasfilename open_error app in
  CitationManagerApp.preview_text previewed
    = CitationManagerApp.preview_text app /\
  CitationManagerApp.dialogs previewed
    = (CitationManagerApp.dialogs app ++ [no_citations_to "preview"])%list /\
  snd exported = None /\
  CitationManagerApp.preview_text (fst exported)
    = CitationManagerApp.preview_text app /\
  CitationManagerApp.dialogs (fst exported)
    = (CitationManagerApp.dialogs app ++ [no_citations_to "export"])%list.
Proof.
  intros H.
  unfold CitationManagerApp.preview_bibliography,
    CitationManagerApp.export_bibliography.
  rewrite H. repeat split.
Qed.

Lemma empty_bibliography_renders_nothing_witness :
  CitationManagerApp.citations empty_app = [] /\
  CitationManagerApp.preview_text
    (CitationManagerApp.preview_bibliography empty_app) = EmptyString /\
  snd (CitationManagerApp.export_bibliography
         (fun proposed => proposed) None empty_app) = None.
Proof.
  split; [reflexivity|].
  destruct (empty_bibliography_renders_nothing empty_app
              (fun proposed => proposed) None eq_refl)
    as (Hp & _ & Hx & _).
  split; [exact Hp|exact Hx].
Defined.

Lemma fold_entries (style : CitationManagerApp.Style) (cs : list Citation)
  (start : Z) (out : string) :
  fold_left
    (fun out '(idx, citation) =>
       out ++ CitationManagerApp.formatters style citation idx
       ++ CitationManagerApp.newline ++ CitationManagerApp.newline)
    (CitationManagerApp.enumerate start cs) out
  = out ++ entries style start cs.
Proof.
  revert start out; induction cs as [|c cs IH]; intros start out; simpl.
  - now rewrite append_nil_r.
  - rewrite IH. now rewrite !append_assoc.
Qed.

Lemma written_header_entries (style : CitationManagerApp.Style)
  (cs : list Citation) :
  CitationManagerApp.written style cs = header style ++ entries style 1 cs.
Proof.
  unfold CitationManagerApp.written. rewrite fold_entries.
  unfold header. now rewrite !append_assoc.
Qed.

Lemma preview_of_records (app : CitationManagerApp.App) :
  CitationManagerApp.citations app <> [] ->
  CitationManagerApp.preview_text
    (CitationManagerApp.preview_bibliography app)
  = header (CitationManagerApp.style_var app)
    ++ entries (CitationManagerApp.style_var app) 1
         (CitationManagerApp.citations app).
Proof.
  intros H. unfold CitationManagerApp.preview_bibliography.
  destruct (CitationManagerApp.citations app) as [|c cs] eqn:E;
    [contradiction|].
  cbn [CitationManagerApp.preview_text].
  apply written_header_entries.
Qed.

(** ** MLA: where the code and the documented rule agree *)

Lemma drop_last_append (x : string) (c : ascii) :
  drop_last_char (x ++ String c EmptyString) = x.
Proof.
  induction x as [|a x IH]; [reflexivity|].
  simpl. rewrite IH. now destruct x.
Qed.

Lemma rstrip_char_one (c : ascii) (x : string) :
  last_char_is c x = false ->
  Py.rstrip_char c (x ++ String c EmptyString) = x.
Proof.
  unfold Py.rstrip_char. induction x as [|a x IH]; intros H.
  - simpl. now rewrite Ascii.eqb_refl.
  - destruct x as [|b x].
    + simpl in *. rewrite Ascii.eqb_refl. now rewrite H.
    + change (last_char_is c (String b x) = false) in H.
      specialize (IH H).
      change (String a (String b x) ++ String c EmptyString)
        with (String a (String b x ++ String c EmptyString)).
      cbn [Py.rstrip_by]. now rewrite IH.
Qed.

(** The two agree on every list whose rendered first author ends in one
    period only. *)
Lemma mla_authors_agree (names : list string) (x : string) :
  mla_first_author names = x ++ "." ->
  last_char_is "." x = false ->
  mla_authors names = mla_authors_documented names.
Proof.
  intros E H. unfold mla_authors, mla_authors_documented.
  destruct (1 <? List.length names)%nat; [|reflexivity].
  rewrite E. now rewrite drop_last_append, rstrip_char_one.
Qed.

(** Only the first piece is rendered: the others count for the choice of
    ", et al." alone. *)
Lemma mla_first_author_only (a : string) (rest rest' : list string) :
  (rest = [] <-> rest' = []) ->
  mla_authors (a :: rest) = mla_authors (a :: rest').
Proof.
  intros H. unfold mla_authors, mla_first_author. cbn [hd].
  destruct rest, rest'; try reflexivity.
  - destruct H as [H _]. now specialize (H eq_refl).
  - destruct H as [_ H]. now specialize (H eq_refl).
Qed.

(** ** The model on concrete inputs *)

Example vancouver_full_record :
  VancouverFormatter.format_citation full_record 2 =
  "2. Public JQ, doe J, Plato. A study of things. Nature 2020;12(3):1-9. "
  ++ "doi:10.1000/x".
Proof. reflexivity. Qed.

Example apa_full_record :
  APAFormatter.format_citation full_record 2 =
  "Public, J. Q., doe, J., & Plato (2020). A study of things. "
  ++ "Nature, 12(3), 1-9. https://doi.org/10.1000/x".
Proof. reflexivity. Qed.

Example mla_full_record :
  MLAFormatter.format_citation full_record 2 =
  "Public, John Q, et al. " ++ Py.dquote ++ "A study of things."
  ++ Py.dquote ++ " Nature, vol. 12, no. 3, 2020, pp. 1-9. doi:10.1000/x.".
Proof. reflexivity. Qed.

Example split_keeps_empty_pieces :
  Py.split "," ",a,,b," = [EmptyString; "a"; EmptyString; "b"; EmptyString]
  /\ Py.split "," EmptyString = [EmptyString]
  /\ Py.words "  a  bc d " = ["a"; "bc"; "d"]
  /\ Py.strip "  a b  " = "a b"
  /\ Py.rstrip_char "." "a.b..." = "a.b".
Proof. repeat split. Qed.

Example doi_second_attempt :
  Re.search Re.doi_pattern None "10.12345/ 10.10.1000/a.b) x"
  = Some "10.1000/a.b)".
Proof. reflexivity. Qed.

Example year_from_meta_inside_digits :
  MetadataExtractor._extract_year 2026
    [Soup.mkTag "meta"
       [("name", "citation_publication_date"); ("content", "x20191/03")]
       EmptyString]
    "in 1999"
  = "2019".
Proof. reflexivity. Qed.

Example extract_sample_page :
  MetadataExtractor.extract_from_url
    (fun _ =>
       MetadataExtractor.Page sample_soup
         "<title> My page </title> (c) 1999, doi 10.1000/ab.c, x")
    2026 "http://e.org/"
  = inl {| title := Some "My page"; authors := Some "Ann Lee, Bob Ray";
           year := Some "1999"; journal := Some EmptyString;
           volume := None; issue := None; pages := None;
           doi := Some "10.1000/ab.c,"; url := Some "http://e.org/";
           source_type := Some "website" |}.
Proof. reflexivity. Qed.

Example preview_two_records :
  CitationManagerApp.preview_text
    (CitationManagerApp.preview_bibliography
       {| CitationManagerApp.citations := [seven_authors; title_only_record];
          CitationManagerApp.style_var := CitationManagerApp.Vancouver;
          CitationManagerApp.preview_text := "old";
          CitationManagerApp.dialogs := [] |})
  = header CitationManagerApp.Vancouver
    ++ "1. Lee A, Ray B, Dow C, Poe D, Kim E, Orr F, et al."
    ++ CitationManagerApp.newline ++ CitationManagerApp.newline
    ++ "2. On Growth."
    ++ CitationManagerApp.newline ++ CitationManagerApp.newline.
Proof. reflexivity. Qed.

(** ** Further properties of the formatters *)

Lemma truthy_of_value (o o' : option string) :
  Py.value o = Py.value o' -> Py.truthy o = Py.truthy o'.
Proof.
  destruct o as [[|a s]|], o' as [[|b t]|]; simpl; intros H;
    try reflexivity; discriminate.
Qed.

Lemma truthy_value_nonempty (o : option string) :
  Py.truthy o = true -> Py.value o <> EmptyString.
Proof. destruct o as [[|a s]|]; simpl; intros H; discriminate. Qed.

Lemma parts_same_text (c c' : Citation) :
  same_text c c' ->
  VancouverFormatter.parts c = VancouverFormatter.parts c' /\
  APAFormatter.parts c = APAFormatter.parts c' /\
  MLAFormatter.parts c = MLAFormatter.parts c'.
Proof.
  intros (Ht & Ha & Hy & Hj & Hv & Hi & Hp & Hd & Hu).
  unfold VancouverFormatter.parts, APAFormatter.parts, MLAFormatter.parts.
  rewrite (truthy_of_value _ _ Ht), (truthy_of_value _ _ Ha),
    (truthy_of_value _ _ Hy), (truthy_of_value _ _ Hj),
    (truthy_of_value _ _ Hv), (truthy_of_value _ _ Hi),
    (truthy_of_value _ _ Hp), (truthy_of_value _ _ Hd),
    (truthy_of_value _ _ Hu), Ht, Ha, Hy, Hj, Hv, Hi, Hp, Hd, Hu.
  repeat split.
Qed.

Lemma render_same_text (style : CitationManagerApp.Style)
  (c c' : Citation) (index : Z) :
  same_text c c' ->
  CitationManagerApp.formatters style c index
  = CitationManagerApp.formatters style c' index.
Proof.
  intros H. destruct (parts_same_text c c' H) as (Hv & Ha & Hm).
  destruct style; simpl;
    unfold VancouverFormatter.format_citation, APAFormatter.format_citation,
      MLAFormatter.format_citation; congruence.
Qed.

(** X1: a formatter cannot tell a missing entry or a NULL from the empty
    string: two records with the same text in the nine fields it reads
    are rendered alike, in every style and for every ordinal. *)
Theorem missing_renders_as_empty (style : CitationManagerApp.Style)
  (c c' : Citation) (index : Z) :
  same_text c c' ->
  CitationManagerApp.formatters style c index
  = CitationManagerApp.formatters style c' index.
Proof. exact (render_same_text style c c' index). Qed.

Lemma missing_renders_as_empty_witness :
  same_text title_only_record
    (with_locators (Some EmptyString) (Some EmptyString) None
       title_only_record) /\
  CitationManagerApp.formatters CitationManagerApp.MLA title_only_record 1
  = CitationManagerApp.formatters CitationManagerApp.MLA
      (with_locators (Some EmptyString) (Some EmptyString) None
         title_only_record) 1.
Proof.
  assert (H : same_text title_only_record
                (with_locators (Some EmptyString) (Some EmptyString) None
                   title_only_record)) by (repeat split).
  split; [exact H|].
  exact (missing_renders_as_empty CitationManagerApp.MLA _ _ 1 H).
Defined.

(** X2: when a record has a DOI, its URL does not show: in every style
    the entry is the same whatever the [url] entry holds. *)
Theorem doi_hides_url (style : CitationManagerApp.Style) (c : Citation)
  (u : option string) (index : Z) :
  Py.truthy (doi c) = true ->
  CitationManagerApp.formatters style (with_url u c) index
  = CitationManagerApp.formatters style c index.
Proof.
  intros H.
  destruct style; simpl;
    unfold VancouverFormatter.format_citation, APAFormatter.format_citation,
      MLAFormatter.format_citation, VancouverFormatter.parts,
      APAFormatter.parts, MLAFormatter.parts;
    cbn [with_url title authors year journal volume issue pages doi url];
    rewrite H; reflexivity.
Qed.

Lemma doi_hides_url_witness :
  Py.truthy (doi two_author_record) = true /\
  CitationManagerApp.formatters CitationManagerApp.APA
    (with_url (Some "http://e.org/") two_author_record) 1
  = "Lee, A., & Ray, B. On Growth. https://doi.org/10.1000/x1".
Proof.
  split; [reflexivity|].
  rewrite (doi_hides_url CitationManagerApp.APA two_author_record
             (Some "http://e.org/") 1 eq_refl).
  reflexivity.
Defined.

(** X3: without a journal, the volume, the issue and the pages are left
    out: in every style the entry is the same whatever these three
    entries hold. *)
Theorem locators_need_journal (style : CitationManagerApp.Style)
  (c : Citation) (v i p : option string) (index : Z) :
  Py.truthy (journal c) = false ->
  CitationManagerApp.formatters style (with_locators v i p c) index
  = CitationManagerApp.formatters style c index.
Proof.
  intros H.
  destruct style; simpl;
    unfold VancouverFormatter.format_citation, APAFormatter.format_citation,
      MLAFormatter.format_citation, VancouverFormatter.parts,
      APAFormatter.parts, MLAFormatter.parts;
    cbn [with_locators title authors year journal volume issue pages doi url];
    rewrite H; reflexivity.
Qed.

Lemma locators_need_journal_witness :
  Py.truthy (journal two_author_record) = false /\
  CitationManagerApp.formatters CitationManagerApp.Vancouver
    (with_locators (Some "12") (Some "3") (Some "1-9") two_author_record) 4
  = "4. Lee A, Ray B. On Growth. doi:10.1000/x1".
Proof.
  split; [reflexivity|].
  rewrite (locators_need_journal CitationManagerApp.Vancouver
             two_author_record (Some "12") (Some "3") (Some "1-9") 4 eq_refl).
  reflexivity.
Defined.

Lemma append_nonempty_r (a b : string) :
  b <> EmptyString -> a ++ b <> EmptyString.
Proof.
  intros H E. destruct a; simpl in E; [contradiction|discriminate].
Qed.

Lemma append_nonempty_l (a b : string) :
  a <> EmptyString -> a ++ b <> EmptyString.
Proof. intros H E. destruct a; simpl in E; [contradiction|discriminate]. Qed.

Lemma vancouver_rest_nonempty (c : Citation) :
  Py.truthy (authors c) = false -> Forall nonempty (VancouverFormatter.parts c).
Proof.
  intros H. unfold VancouverFormatter.parts. rewrite H.
  destruct (Py.truthy (title c)), (Py.truthy (journal c)),
    (Py.truthy (year c)), (Py.truthy (doi c)), (Py.truthy (url c));
    unfold append; cbn [app];
    repeat constructor; unfold nonempty;
    try (apply append_nonempty_r; discriminate); discriminate.
Qed.

Lemma mla_rest_nonempty (c : Citation) :
  Py.truthy (authors c) = false -> Forall nonempty (MLAFormatter.parts c).
Proof.
  intros H. unfold MLAFormatter.parts. rewrite H.
  destruct (Py.truthy (title c)), (Py.truthy (journal c)),
    (Py.truthy (year c)), (Py.truthy (doi c)), (Py.truthy (url c));
    unfold append; cbn [app];
    repeat constructor; unfold nonempty;
    try (apply append_nonempty_r; discriminate); discriminate.
Qed.

Lemma apa_rest_nonempty (c : Citation) :
  Py.truthy (authors c) = false -> Forall nonempty (APAFormatter.parts c).
Proof.
  intros H. unfold APAFormatter.parts. rewrite H.
  destruct (Py.truthy (title c)), (Py.truthy (journal c)),
    (Py.truthy (year c)), (Py.truthy (doi c)), (Py.truthy (url c)) eqn:U;
    unfold append; cbn [app];
    repeat constructor; unfold nonempty;
    try (apply append_nonempty_r; discriminate);
    try discriminate; now apply truthy_value_nonempty.
Qed.

Lemma rstrip_by_empty (p : ascii -> bool) (s : string) :
  Py.rstrip_by p s = EmptyString <-> all_chars p s = true.
Proof.
  induction s as [|c s IH]; simpl; [tauto|].
  destruct (Py.rstrip_by p s) as [|d r] eqn:E.
  - destruct (p c); simpl.
    + tauto.
    + split; discriminate.
  - split; [discriminate|]. intros H. apply andb_true_iff in H as [_ H].
    apply IH in H. discriminate.
Qed.

Lemma lstrip_by_all (p : ascii -> bool) (s : string) :
  all_chars p (Py.lstrip_by p s) = all_chars p s.
Proof.
  induction s as [|c s IH]; simpl; [reflexivity|].
  destruct (p c) eqn:E; simpl; [exact IH|now rewrite E].
Qed.

Lemma strip_empty_iff (s : string) :
  Py.strip s = EmptyString <-> all_chars Py.isspace s = true.
Proof.
  unfold Py.strip. rewrite rstrip_by_empty. now rewrite lstrip_by_all.
Qed.

Lemma split_single (sep : ascii) (s a : string) :
  Py.split sep s = [a] -> a = s.
Proof.
  revert a; induction s as [|c s IH]; intros a; simpl.
  - now intros [= <-].
  - destruct (Ascii.eqb c sep).
    + intros [= _ H]. now destruct (split_not_nil sep s).
    + destruct (Py.split sep s) as [|x xs] eqn:E;
        [now destruct (split_not_nil sep s)|].
      intros [= <- ->]. now rewrite (IH x eq_refl).
Qed.

Lemma split_blank (s : string) :
  all_chars Py.isspace s = true -> Py.split "," s = [s].
Proof.
  induction s as [|c s IH]; simpl; [reflexivity|].
  intros H. apply andb_true_iff in H as [Hc Hs].
  destruct (space_facts c Hc) as (_ & _ & _ & _ & _ & _).
  assert (Hcomma : (c =? ",")%char = false).
  { destruct c as [b0 b1 b2 b3 b4 b5 b6 b7].
    destruct b0, b1, b2, b3, b4, b5, b6, b7; try reflexivity;
      vm_compute in Hc; discriminate Hc. }
  rewrite Hcomma, (IH Hs). reflexivity.
Qed.

Lemma apa_format_author_empty (a : string) :
  APAFormatter.format_author a = EmptyString <-> Py.strip a = EmptyString.
Proof.
  unfold APAFormatter.format_author.
  destruct (2 <=? List.length (Py.words (Py.strip a)))%nat eqn:E.
  - split.
    + intros H. exfalso. revert H. apply append_nonempty_r. discriminate.
    + intros H. rewrite H in E. discriminate.
  - tauto.
Qed.

Lemma apa_authors_empty (names : list string) :
  names <> [] ->
  (apa_authors names = EmptyString <->
   exists a, names = [a] /\ Py.strip a = EmptyString).
Proof.
  intros Hne. destruct names as [|a [|b rest]]; [contradiction| |].
  - unfold apa_authors. cbn [firstn map List.length Nat.ltb Nat.leb hd].
    rewrite apa_format_author_empty. split.
    + intros H. now exists a.
    + now intros (x & [= <-] & H).
  - split.
    + intros H. exfalso. revert H. unfold apa_authors.
      destruct (20 <? _)%nat.
      * rewrite <- append_assoc. apply append_nonempty_l.
        apply append_nonempty_r. discriminate.
      * cbn [firstn map List.length Nat.ltb Nat.leb].
        rewrite <- append_assoc. apply append_nonempty_l.
        apply append_nonempty_r. discriminate.
    + intros (x & [=] & _).
Qed.

(** X4: the Vancouver and the MLA formatter never put an empty segment
    between the spaces of an entry, whatever the record holds. *)
Theorem no_empty_segment (c : Citation) :
  Forall (fun segment => segment <> EmptyString) (VancouverFormatter.parts c)
  /\
  Forall (fun segment => segment <> EmptyString) (MLAFormatter.parts c).
Proof.
  assert (Hw : Py.truthy (authors (without_authors c)) = false)
    by reflexivity.
  destruct (Py.truthy (authors c)) eqn:H.
  - rewrite (vancouver_parts_authors c H), (mla_parts_authors c H). split.
    + constructor; [|exact (vancouver_rest_nonempty _ Hw)].
      unfold vancouver_authors. apply append_nonempty_r.
      destruct (6 <? _)%nat; discriminate.
    + constructor; [|exact (mla_rest_nonempty _ Hw)].
      unfold mla_authors, mla_first_author.
      destruct (1 <? _)%nat.
      * apply append_nonempty_r. discriminate.
      * destruct (2 <=? _)%nat; apply append_nonempty_r; simpl;
          discriminate.
  - split; [exact (vancouver_rest_nonempty c H)|exact (mla_rest_nonempty c H)].
Qed.

(** X5: the APA formatter puts an empty segment in the list that it
    joins with spaces exactly when the authors string is not empty and
    holds whitespace only. *)
Theorem apa_empty_segment_iff_blank_authors (c : Citation) :
  In EmptyString (APAFormatter.parts c) <->
  Py.truthy (authors c) = true /\
  all_chars Py.isspace (Py.value (authors c)) = true.
Proof.
  assert (Hrest : forall c', Py.truthy (authors c') = false ->
                             ~ In EmptyString (APAFormatter.parts c')).
  { intros c' H' Hin. pose proof (apa_rest_nonempty c' H') as F.
    rewrite Forall_forall in F. now apply (F _ Hin). }
  destruct (Py.truthy (authors c)) eqn:H.
  - rewrite (apa_parts_authors c H). cbn [In].
    rewrite (apa_authors_empty _ (split_not_nil "," _)). split.
    + intros [(a & Ea & Hs)|Hin].
      * rewrite (split_single _ _ _ Ea) in Hs.
        split; [reflexivity|now apply strip_empty_iff].
      * now destruct (Hrest (without_authors c) eq_refl).
    + intros [_ Hb]. left. exists (Py.value (authors c)).
      split; [now apply split_blank|now apply strip_empty_iff].
  - split; [intros Hin; now destruct (Hrest c H)|intros [E _]; discriminate].
Qed.

(** ** Names *)

Lemma words_from_run (w cur s : string) :
  all_chars Re.not_space w = true ->
  Py.words_from cur (w ++ s) = Py.words_from (cur ++ w) s.
Proof.
  revert cur; induction w as [|c w IH]; intros cur H; simpl.
  - now rewrite append_nil_r.
  - apply andb_true_iff in H as [Hc Hw].
    unfold Re.not_space in Hc. apply negb_true_iff in Hc. rewrite Hc.
    rewrite (IH _ Hw), append_assoc. reflexivity.
Qed.

Lemma words_join (ws : list string) :
  Forall name_part ws -> Py.words (Py.join " " ws) = ws.
Proof.
  unfold Py.words, Py.join.
  induction ws as [|w ws IH]; intros H; [reflexivity|].
  inversion H as [|? ? [Hne Hw] Hrest]; subst.
  destruct ws as [|w2 ws].
  - simpl. rewrite <- (append_nil_r w) at 1.
    rewrite (words_from_run w _ _ Hw). simpl. now destruct w.
  - change (String.concat " " (w :: w2 :: ws))
      with (w ++ String " " (String.concat " " (w2 :: ws))).
    rewrite (words_from_run w _ _ Hw). cbn [append Py.words_from].
    change (Py.isspace " ") with true. cbv iota.
    rewrite (IH Hrest). now destruct w.
Qed.

Lemma lstrip_by_pad (p : ascii -> bool) (pad s : string) :
  all_chars p pad = true -> Py.lstrip_by p (pad ++ s) = Py.lstrip_by p s.
Proof.
  induction pad as [|c pad IH]; simpl; intros H; [reflexivity|].
  apply andb_true_iff in H as [Hc Hp]. rewrite Hc. now apply IH.
Qed.

Lemma rstrip_by_pad (p : ascii -> bool) (s pad : string) :
  all_chars p pad = true -> Py.rstrip_by p (s ++ pad) = Py.rstrip_by p s.
Proof.
  intros H. induction s as [|c s IH]; simpl.
  - now apply rstrip_by_empty.
  - now rewrite IH.
Qed.

Lemma rstrip_by_app (p : ascii -> bool) (a b : string) :
  Py.rstrip_by p b <> EmptyString ->
  Py.rstrip_by p (a ++ b) = a ++ Py.rstrip_by p b.
Proof.
  intros H. induction a as [|c a IH]; simpl; [reflexivity|].
  rewrite IH. destruct (a ++ Py.rstrip_by p b) eqn:E; [|reflexivity].
  destruct a; simpl in E; [contradiction|discriminate].
Qed.

Lemma rstrip_by_part (w : string) :
  all_chars Re.not_space w = true -> Py.rstrip_by Py.isspace w = w.
Proof.
  induction w as [|c w IH]; simpl; intros H; [reflexivity|].
  apply andb_true_iff in H as [Hc Hw]. rewrite (IH Hw).
  unfold Re.not_space in Hc. apply negb_true_iff in Hc. rewrite Hc.
  now destruct w.
Qed.

Lemma lstrip_by_part (w s : string) :
  name_part w -> Py.lstrip_by Py.isspace (w ++ s) = w ++ s.
Proof.
  intros [Hne Hw]. destruct w as [|c w]; [contradiction|].
  simpl in *. apply andb_true_iff in Hw as [Hc _].
  unfold Re.not_space in Hc. apply negb_true_iff in Hc. now rewrite Hc.
Qed.

(** Name parts joined by single spaces have nothing to strip. *)
Lemma strip_join (ws : list string) :
  Forall name_part ws -> ws <> [] ->
  Py.strip (Py.join " " ws) = Py.join " " ws /\
  Py.join " " ws <> EmptyString.
Proof.
  unfold Py.strip, Py.join.
  induction ws as [|w ws IH]; intros H Hne; [contradiction|].
  inversion H as [|? ? Hp Hrest]; subst.
  destruct ws as [|w2 ws].
  - simpl. rewrite <- (append_nil_r w) at 1.
    rewrite (lstrip_by_part w _ Hp), append_nil_r.
    split; [apply rstrip_by_part, Hp|apply Hp].
  - change (String.concat " " (w :: w2 :: ws))
      with (w ++ String " " (String.concat " " (w2 :: ws))).
    rewrite (lstrip_by_part w _ Hp).
    destruct (IH Hrest) as [Hs Hn]; [discriminate|].
    assert (Hr : Py.rstrip_by Py.isspace (String.concat " " (w2 :: ws))
                 = String.concat " " (w2 :: ws)).
    { inversion Hrest as [|? ? Hp2 _]; subst.
      destruct ws as [|w3 ws].
      - simpl. apply rstrip_by_part, Hp2.
      - change (String.concat " " (w2 :: w3 :: ws))
          with (w2 ++ String " " (String.concat " " (w3 :: ws))) in Hs |- *.
        now rewrite (lstrip_by_part w2 _ Hp2) in Hs. }
    split.
    + change (w ++ String " " (String.concat " " (w2 :: ws)))
        with (w ++ " " ++ String.concat " " (w2 :: ws)).
      rewrite <- append_assoc.
      rewrite rstrip_by_app; rewrite Hr; [reflexivity|exact Hn].
    + apply append_nonempty_l, Hp.
Qed.

Lemma strip_padded (lead s trail : string) :
  all_chars Py.isspace lead = true -> all_chars Py.isspace trail = true ->
  Py.strip s = s -> s <> EmptyString ->
  Py.strip (lead ++ s ++ trail) = s.
Proof.
  intros Hl Ht Hs Hne. unfold Py.strip in *.
  rewrite (lstrip_by_pad _ lead _ Hl).
  assert (Hhead : Py.lstrip_by Py.isspace s = s).
  { destruct s as [|c s]; [contradiction|]. simpl in *.
    destruct (Py.isspace c) eqn:E; [|reflexivity].
    exfalso.
    assert (L : forall p x, (String.length (Py.rstrip_by p x)
                             <= String.length x)%nat).
    { intros p x. induction x as [|d x IHx]; simpl; [lia|].
      destruct (Py.rstrip_by p x); [destruct (p d)|]; simpl in *; lia. }
    assert (M : forall p x, (String.length (Py.lstrip_by p x)
                             <= String.length x)%nat).
    { intros p x. induction x as [|d x IHx]; simpl; [lia|].
      destruct (p d); simpl; lia. }
    pose proof (L Py.isspace (Py.lstrip_by Py.isspace s)) as L1.
    pose proof (M Py.isspace s) as M1.
    rewrite Hs in L1. simpl in L1. lia. }
  assert (Hl2 : Py.lstrip_by Py.isspace (s ++ trail) = s ++ trail).
  { destruct s as [|c s]; [contradiction|]. simpl in *.
    destruct (Py.isspace c); [|reflexivity].
    exfalso.
    assert (M : forall p x, (String.length (Py.lstrip_by p x)
                             <= String.length x)%nat).
    { intros p x. induction x as [|d x IHx]; simpl; [lia|].
      destruct (p d); simpl; lia. }
    pose proof (M Py.isspace s) as M1. rewrite Hhead in M1.
    simpl in M1. lia. }
  rewrite Hl2, (rstrip_by_pad _ s trail Ht).
  now rewrite Hhead in Hs.
Qed.

Lemma strip_name (ws : list string) (lead trail : string) :
  Forall name_part ws -> ws <> [] ->
  all_chars Py.isspace lead = true -> all_chars Py.isspace trail = true ->
  Py.strip (lead ++ Py.join " " ws ++ trail) = Py.join " " ws.
Proof.
  intros H Hne Hl Ht. destruct (strip_join ws H Hne) as [Hs Hn].
  now apply strip_padded.
Qed.

(** X6: a name of two or more parts separated by single spaces, with any
    whitespace around it, is rendered from its parts: by Vancouver as the
    last part, a space and the first letters of the other parts in upper
    case; by APA as the last part, a comma and these letters each with a
    period; by MLA, for the first author, as the last part, a comma, the
    other parts and a period. *)
Theorem name_rendered_from_parts (ws : list string) (lead trail : string) :
  (2 <= List.length ws)%nat ->
  Forall name_part ws ->
  all_chars Py.isspace lead = true ->
  all_chars Py.isspace trail = true ->
  let author := lead ++ Py.join " " ws ++ trail in
  VancouverFormatter.format_author author
    = last_item ws ++ " "
      ++ Py.join EmptyString (map Py.initial (but_last ws))
  /\
  APAFormatter.format_author author
    = last_item ws ++ ", "
      ++ Py.join ". " (map Py.initial (but_last ws)) ++ "."
  /\
  forall others : list string,
    mla_first_author (author :: others)
    = last_item ws ++ ", " ++ Py.join " " (but_last ws) ++ ".".
Proof.
  intros Hlen H Hl Ht author.
  assert (Hne : ws <> []) by (destruct ws; [simpl in Hlen; lia|discriminate]).
  pose proof (strip_name ws lead trail H Hne Hl Ht) as Hs. fold author in Hs.
  pose proof (words_join ws H) as Hw.
  apply Nat.leb_le in Hlen.
  unfold VancouverFormatter.format_author, APAFormatter.format_author,
    mla_first_author. cbn [hd].
  rewrite Hs, Hw, Hlen. repeat split.
Qed.

Lemma name_rendered_from_parts_witness :
  Forall name_part ["john"; "ronald"; "reuel"; "Tolkien"] /\
  VancouverFormatter.format_author " john ronald reuel Tolkien  "
    = "Tolkien JRR" /\
  APAFormatter.format_author " john ronald reuel Tolkien  "
    = "Tolkien, J. R. R." /\
  mla_first_author [" john ronald reuel Tolkien  "; "x"]
    = "Tolkien, john ronald reuel.".
Proof.
  assert (H : Forall name_part ["john"; "ronald"; "reuel"; "Tolkien"]).
  { repeat constructor; discriminate. }
  split; [exact H|].
  destruct (name_rendered_from_parts ["john"; "ronald"; "reuel"; "Tolkien"]
              " " "  " ltac:(simpl; lia) H eq_refl eq_refl)
    as (Hv & Ha & Hm).
  split; [exact Hv|]. split; [exact Ha|exact (Hm ["x"])].
Defined.

(** X7: a name of one part, with any whitespace around it, passes
    through: Vancouver and APA render the part itself, and MLA, for the
    first author, the part and a period. *)
Theorem single_part_name_passes (w lead trail : string) :
  name_part w ->
  all_chars Py.isspace lead = true ->
  all_chars Py.isspace trail = true ->
  let author := lead ++ w ++ trail in
  VancouverFormatter.format_author author = w /\
  APAFormatter.format_author author = w /\
  forall others : list string,
    mla_first_author (author :: others) = w ++ ".".
Proof.
  intros Hp Hl Ht author.
  assert (H : Forall name_part [w]) by (constructor; [exact Hp|constructor]).
  pose proof (strip_name [w] lead trail H ltac:(discriminate) Hl Ht) as Hs.
  pose proof (words_join [w] H) as Hw.
  change (Py.join " " [w]) with w in Hs, Hw. fold author in Hs.
  unfold VancouverFormatter.format_author, APAFormatter.format_author,
    mla_first_author. cbn [hd].
  rewrite Hs, Hw. repeat split.
Qed.

Lemma single_part_name_passes_witness :
  name_part "Plato" /\
  VancouverFormatter.format_author " Plato" = "Plato" /\
  APAFormatter.format_author " Plato" = "Plato" /\
  mla_first_author [" Plato"] = "Plato.".
Proof.
  assert (H : name_part "Plato") by (split; [discriminate|reflexivity]).
  split; [exact H|].
  destruct (single_part_name_passes "Plato" " " EmptyString H eq_refl eq_refl)
    as (Hv & Ha & Hm).
  split; [exact Hv|]. split; [exact Ha|exact (Hm [])].
Defined.

(** ** Further properties of the extractor *)

(** X8: the extracted title is empty only in one case: neither the
    og:title nor the citation_title tag gives a content, and the page has
    a title tag whose text is blank; the literal fallback does not cover
    that case. *)
Theorem title_empty_iff_blank_title_tag (soup : Soup.t) :
  MetadataExtractor._extract_title soup = EmptyString <->
  Py.truthy
    (Soup.content (Soup.find_attr "meta" "property" "og:title" soup)) = false
  /\
  Py.truthy
    (Soup.content (Soup.find_attr "meta" "name" "citation_title" soup)) = false
  /\
  exists title_tag : Soup.Tag,
    Soup.find "title" soup = Some title_tag /\
    all_chars Py.isspace (Soup.tag_text title_tag) = true.
Proof.
  unfold MetadataExtractor._extract_title.
  destruct (Py.truthy (Soup.content (Soup.find_attr "meta" "property"
                                       "og:title" soup))) eqn:Og.
  - split; [|intros [E _]; discriminate].
    intros H. now destruct (truthy_value_nonempty _ Og).
  - destruct (Py.truthy (Soup.content (Soup.find_attr "meta" "name"
                                         "citation_title" soup))) eqn:Ct.
    + split; [|intros (_ & E & _); discriminate].
      intros H. now destruct (truthy_value_nonempty _ Ct).
    + destruct (Soup.find "title" soup) as [tag|].
      * rewrite strip_empty_iff. split.
        -- intros H. repeat split. now exists tag.
        -- now intros (_ & _ & t & [= <-] & H).
      * split; [discriminate|]. now intros (_ & _ & t & E & _).
Qed.

Lemma str_int_nonempty (i : Z) : Py.str_int i <> EmptyString.
Proof.
  unfold Py.str_int, NilZero.string_of_int, NilZero.string_of_uint.
  destruct (Z.to_int i) as [u|u]; destruct u; simpl; discriminate.
Qed.

Lemma year_token_length (y : string) :
  year_token y -> String.length y = 4%nat.
Proof. intros (c & d & _ & _ & [->| ->]); reflexivity. Qed.

Lemma extract_year_shape (now_year : Z) (soup : Soup.t) (html_text : string) :
  year_token (MetadataExtractor._extract_year now_year soup html_text) \/
  MetadataExtractor._extract_year now_year soup html_text
  = Py.str_int now_year.
Proof.
  unfold MetadataExtractor._extract_year.
  set (content := Soup.content _).
  pose proof (year_search_first (Py.value content)) as Hc.
  pose proof (year_word_search_first html_text) as Ht.
  destruct (Py.truthy content);
    [destruct (Re.search Re.year_pattern None (Py.value content))|];
    try (left; destruct Hc as (_ & _ & _ & Hy & _); exact Hy);
    destruct (Re.search Re.year_word_pattern None html_text);
    try (left; destruct Ht as (_ & _ & _ & Hy & _); exact Hy);
    right; reflexivity.
Qed.

Lemma extract_year_nonempty (now_year : Z) (soup : Soup.t)
  (html_text : string) :
  MetadataExtractor._extract_year now_year soup html_text <> EmptyString.
Proof.
  destruct (extract_year_shape now_year soup html_text) as [H|H].
  - pose proof (year_token_length _ H) as L. intros E. rewrite E in L.
    discriminate.
  - rewrite H. apply str_int_nonempty.
Qed.

(** X9: the extracted year is never empty: it is a 19xx or 20xx token
    of four characters, or the current year in decimal. *)
Theorem year_never_empty (now_year : Z) (soup : Soup.t) (html_text : string) :
  let result := MetadataExtractor._extract_year now_year soup html_text in
  result <> EmptyString /\
  ((year_token result /\ String.length result = 4%nat) \/
   result = Py.str_int now_year).
Proof.
  intros result. split; [apply extract_year_nonempty|].
  destruct (extract_year_shape now_year soup html_text) as [H|H].
  - left. split; [exact H|now apply year_token_length].
  - now right.
Qed.

Lemma fold_contents (tags : list Soup.Tag) (acc : list string) :
  fold_left
    (fun authors tag =>
       if Py.truthy (Soup.get tag "content")
       then append authors (Py.value (Soup.get tag "content"))
       else authors)
    tags acc
  = (acc ++ map (fun tag => Py.value (Soup.get tag "content"))
              (filter (fun tag => Py.truthy (Soup.get tag "content")) tags))%list.
Proof.
  revert acc; induction tags as [|t tags IH]; intros acc; simpl.
  - now rewrite app_nil_r.
  - rewrite IH. destruct (Py.truthy (Soup.get t "content")); [|reflexivity].
    unfold append. simpl. now rewrite <- app_assoc.
Qed.

Lemma split_comma_free (s : string) :
  comma_free s = true -> Py.split "," s = [s].
Proof.
  unfold comma_free. induction s as [|c s IH]; simpl; [reflexivity|].
  intros H. apply andb_true_iff in H as [Hc Hs].
  apply negb_true_iff in Hc. rewrite Hc, (IH Hs). reflexivity.
Qed.

Lemma split_before_comma (a t : string) :
  comma_free a = true ->
  Py.split "," (a ++ String "," t) = a :: Py.split "," t.
Proof.
  unfold comma_free. induction a as [|c a IH]; simpl; [reflexivity|].
  intros H. apply andb_true_iff in H as [Hc Ha].
  apply negb_true_iff in Hc. rewrite Hc, (IH Ha). reflexivity.
Qed.

Lemma split_join (l : list string) :
  forallb comma_free l = true ->
  Py.split "," (Py.join ", " l) = spaced l.
Proof.
  unfold Py.join. induction l as [|a l IH]; intros H; [reflexivity|].
  simpl in H. apply andb_true_iff in H as [Ha Hl].
  destruct l as [|b l].
  - simpl. now apply split_comma_free.
  - change (String.concat ", " (a :: b :: l))
      with (a ++ String "," (String " " (String.concat ", " (b :: l)))).
    rewrite (split_before_comma _ _ Ha).
    cbn [Py.split]. change (" " =? ",")%char with false. cbv iota.
    rewrite (IH Hl). reflexivity.
Qed.

Lemma spaced_same_names (l : list string) :
  l <> [] -> same_names (spaced l) l.
Proof.
  destruct l as [|a l]; [contradiction|]. intros _.
  constructor; [reflexivity|].
  induction l as [|b l IH]; constructor; [reflexivity|exact IH].
Qed.

Lemma same_names_firstn (n : nat) (xs ys : list string) :
  same_names xs ys -> same_names (firstn n xs) (firstn n ys).
Proof.
  intros H. revert n. induction H as [|x y xs ys Hxy H IH]; intros [|n];
    simpl; constructor; [exact Hxy|apply IH].
Qed.

Lemma same_names_length (xs ys : list string) :
  same_names xs ys -> List.length xs = List.length ys.
Proof. intros H. induction H; simpl; congruence. Qed.

Lemma same_names_map (f : string -> string) (xs ys : list string) :
  (forall x y, Py.strip x = Py.strip y -> f x = f y) ->
  same_names xs ys -> map f xs = map f ys.
Proof.
  intros Hf H. induction H as [|x y xs ys Hxy H IH]; simpl; [reflexivity|].
  now rewrite (Hf _ _ Hxy), IH.
Qed.

Lemma vancouver_format_author_strip (x y : string) :
  Py.strip x = Py.strip y ->
  VancouverFormatter.format_author x = VancouverFormatter.format_author y.
Proof. intros H. unfold VancouverFormatter.format_author. now rewrite H. Qed.

Lemma apa_format_author_strip (x y : string) :
  Py.strip x = Py.strip y ->
  APAFormatter.format_author x = APAFormatter.format_author y.
Proof. intros H. unfold APAFormatter.format_author. now rewrite H. Qed.

(** The author segment of each style depends on the pieces up to the
    whitespace around them only. *)
Lemma authors_same_names (xs ys : list string) :
  same_names xs ys ->
  vancouver_authors xs = vancouver_authors ys /\
  apa_authors xs = apa_authors ys /\
  mla_authors xs = mla_authors ys.
Proof.
  intros H. pose proof (same_names_length _ _ H) as L.
  unfold vancouver_authors, apa_authors, mla_authors, mla_first_author.
  rewrite L.
  rewrite (same_names_map _ _ _ vancouver_format_author_strip
             (same_names_firstn 6 _ _ H)).
  rewrite (same_names_map _ _ _ apa_format_author_strip
             (same_names_firstn 20 _ _ H)).
  repeat split.
  destruct H as [|x y xs ys Hxy H]; [reflexivity|]. cbn [hd].
  now rewrite Hxy.
Qed.

(** X10: when the page names its authors in citation_author tags with a
    content, none of which holds a comma, the formatters get these very
    authors back from the extracted string: as many pieces as tags, and
    in each style the author segment that the contents give. *)
Theorem extracted_authors_are_recovered (soup : Soup.t) :
  let contents := citation_author_contents soup in
  contents <> [] ->
  forallb comma_free contents = true ->
  MetadataExtractor._extract_authors soup = Py.join ", " contents /\
  let names := Py.split "," (MetadataExtractor._extract_authors soup) in
  List.length names = List.length contents /\
  vancouver_authors names = vancouver_authors contents /\
  apa_authors names = apa_authors contents /\
  mla_authors names = mla_authors contents.
Proof.
  intros contents Hne Hfree.
  assert (E : MetadataExtractor._extract_authors soup = Py.join ", " contents).
  { unfold MetadataExtractor._extract_authors. rewrite fold_contents.
    cbn [app]. fold (citation_author_contents soup). fold contents.
    destruct contents; [contradiction|reflexivity]. }
  split; [exact E|]. cbv zeta. rewrite E, (split_join _ Hfree).
  pose proof (spaced_same_names contents Hne) as S.
  split; [exact (same_names_length _ _ S)|exact (authors_same_names _ _ S)].
Qed.

Lemma extracted_authors_are_recovered_witness :
  citation_author_contents sample_soup = ["Ann Lee"; "Bob Ray"] /\
  MetadataExtractor._extract_authors sample_soup = "Ann Lee, Bob Ray" /\
  List.length
    (Py.split "," (MetadataExtractor._extract_authors sample_soup)) = 2%nat.
Proof.
  split; [reflexivity|].
  destruct (extracted_authors_are_recovered sample_soup
              ltac:(discriminate) eq_refl) as (E & L & _).
  split; [exact E|exact L].
Defined.

(** ** The database *)

Lemma largest_id_bound (l : list CitationDatabase.Row) :
  Forall (fun r => (CitationDatabase.row_id r
                    <= CitationDatabase.largest_id l)%Z) l.
Proof.
  induction l as [|a l IH]; simpl; constructor; [lia|].
  eapply Forall_impl; [|exact IH]. simpl. intros r H. lia.
Qed.

Lemma insert_by_id_in (r x : CitationDatabase.Row)
  (l : list CitationDatabase.Row) :
  In x (CitationDatabase.insert_by_id r l) <-> x = r \/ In x l.
Proof.
  induction l as [|a l IH]; simpl; [intuition auto|].
  destruct (_ <? _)%Z; simpl; [intuition auto|].
  rewrite IH. intuition auto.
Qed.

Lemma order_by_id_in (x : CitationDatabase.Row)
  (l : list CitationDatabase.Row) :
  In x (CitationDatabase.order_by_id l) <-> In x l.
Proof.
  induction l as [|a l IH]; simpl; [tauto|].
  rewrite insert_by_id_in, IH. intuition auto.
Qed.

Lemma insert_by_id_sorted (r : CitationDatabase.Row)
  (l : list CitationDatabase.Row) :
  StronglySorted id_le l ->
  StronglySorted id_le (CitationDatabase.insert_by_id r l).
Proof.
  induction l as [|a l IH]; intros H; simpl.
  - repeat constructor.
  - inversion H as [|? ? Hl Ha]; subst.
    destruct (Z.ltb_spec (CitationDatabase.row_id r)
                (CitationDatabase.row_id a)) as [Hlt|Hge].
    + constructor; [exact H|]. constructor; [unfold id_le; lia|].
      eapply Forall_impl; [|exact Ha]. unfold id_le. intros x Hx. lia.
    + constructor; [apply IH, Hl|].
      rewrite Forall_forall in *. intros x Hx.
      apply insert_by_id_in in Hx as [->|Hx]; [exact Hge|now apply Ha].
Qed.

Lemma order_by_id_sorted (l : list CitationDatabase.Row) :
  StronglySorted id_le (CitationDatabase.order_by_id l).
Proof.
  induction l as [|a l IH]; simpl; [constructor|].
  now apply insert_by_id_sorted.
Qed.

Lemma insert_by_id_before_last (a x : CitationDatabase.Row)
  (m : list CitationDatabase.Row) :
  (CitationDatabase.row_id a < CitationDatabase.row_id x)%Z ->
  CitationDatabase.insert_by_id a (m ++ [x])
  = (CitationDatabase.insert_by_id a m ++ [x])%list.
Proof.
  intros H. induction m as [|y m IH]; simpl.
  - destruct (Z.ltb_spec (CitationDatabase.row_id a)
                (CitationDatabase.row_id x)); [reflexivity|lia].
  - destruct (_ <? _)%Z; [reflexivity|]. now rewrite IH.
Qed.

Lemma order_by_id_last (l : list CitationDatabase.Row)
  (x : CitationDatabase.Row) :
  Forall (fun r => id_lt r x) l ->
  CitationDatabase.order_by_id (l ++ [x])
  = (CitationDatabase.order_by_id l ++ [x])%list.
Proof.
  induction l as [|a l IH]; intros H; [reflexivity|].
  inversion H as [|? ? Ha Hl]; subst. simpl.
  rewrite (IH Hl). now apply insert_by_id_before_last.
Qed.

Lemma insert_by_id_first (a : CitationDatabase.Row)
  (l : list CitationDatabase.Row) :
  Forall (fun x => id_lt a x) l ->
  CitationDatabase.insert_by_id a l = a :: l.
Proof.
  destruct l as [|x l]; [reflexivity|]. intros H.
  inversion H as [|? ? Hx _]; subst. simpl.
  destruct (Z.ltb_spec (CitationDatabase.row_id a)
              (CitationDatabase.row_id x)); [reflexivity|].
  unfold id_lt in Hx. lia.
Qed.

Lemma insert_by_id_filter (p : CitationDatabase.Row -> bool)
  (a : CitationDatabase.Row) (m : list CitationDatabase.Row) :
  StronglySorted id_le m ->
  filter p (CitationDatabase.insert_by_id a m)
  = if p a then CitationDatabase.insert_by_id a (filter p m)
    else filter p m.
Proof.
  induction m as [|y m IH]; intros H; simpl.
  - now destruct (p a).
  - inversion H as [|? ? Hm Hy]; subst.
    destruct (Z.ltb_spec (CitationDatabase.row_id a)
                (CitationDatabase.row_id y)) as [Hlt|Hge].
    + simpl. destruct (p a) eqn:Pa; [|reflexivity].
      destruct (p y) eqn:Py.
      * simpl. destruct (Z.ltb_spec (CitationDatabase.row_id a)
                           (CitationDatabase.row_id y)); [reflexivity|lia].
      * symmetry. apply insert_by_id_first.
        rewrite Forall_forall in *. intros x Hx.
        apply filter_In in Hx as [Hx _].
        specialize (Hy x Hx). unfold id_le, id_lt in *. lia.
    + simpl. rewrite (IH Hm).
      destruct (p y) eqn:Py, (p a) eqn:Pa; try reflexivity.
      simpl. destruct (Z.ltb_spec (CitationDatabase.row_id a)
                         (CitationDatabase.row_id y)); [lia|reflexivity].
Qed.

Lemma order_by_id_filter (p : CitationDatabase.Row -> bool)
  (l : list CitationDatabase.Row) :
  CitationDatabase.order_by_id (filter p l)
  = filter p (CitationDatabase.order_by_id l).
Proof.
  induction l as [|a l IH]; [reflexivity|]. simpl.
  rewrite (insert_by_id_filter p a _ (order_by_id_sorted l)).
  destruct (p a); simpl; now rewrite IH.
Qed.

Lemma add_citation_rows (now : string) (data : Citation)
  (db : CitationDatabase.t) :
  CitationDatabase.add_citation now data db
  = ({| CitationDatabase.rows :=
          (CitationDatabase.rows db ++ [written_row now data db])%list;
        CitationDatabase.sequence := CitationDatabase.next_id db |},
     CitationDatabase.next_id db).
Proof. reflexivity. Qed.

Lemma next_id_fresh (db : CitationDatabase.t) :
  (CitationDatabase.sequence db < CitationDatabase.next_id db)%Z /\
  Forall (fun r => (CitationDatabase.row_id r
                    < CitationDatabase.next_id db)%Z)
    (CitationDatabase.rows db).
Proof.
  unfold CitationDatabase.next_id. split; [lia|].
  eapply Forall_impl; [|exact (largest_id_bound (CitationDatabase.rows db))].
  simpl. intros r H. lia.
Qed.

Lemma get_all_after_add (now : string) (data : Citation)
  (db : CitationDatabase.t) :
  CitationDatabase.get_all_citations
    (fst (CitationDatabase.add_citation now data db))
  = (CitationDatabase.get_all_citations db ++ [written_row now data db])%list.
Proof.
  rewrite add_citation_rows. unfold CitationDatabase.get_all_citations.
  cbn [fst CitationDatabase.rows]. apply order_by_id_last.
  destruct (next_id_fresh db) as [_ H].
  eapply Forall_impl; [|exact H]. unfold id_lt. simpl. intros r Hr. exact Hr.
Qed.

Lemma written_row_same_text (now : string) (data : Citation)
  (db : CitationDatabase.t) :
  same_text (CitationDatabase.as_citation (written_row now data db)) data.
Proof.
  unfold same_text, CitationDatabase.as_citation, written_row. simpl.
  destruct data as [t a y j v i p d u s]; simpl.
  destruct t, a, y, j, v, i, p, d, u; repeat split.
Qed.


(** X12: a record is rendered after a trip through the database as it
    was before: the row listed under the id that [add_citation] returned
    gives, in every style and for every ordinal, the entry of the record
    that was added. *)
Theorem stored_record_renders_alike (style : CitationManagerApp.Style)
  (now : string) (data : Citation) (db : CitationDatabase.t) (index : Z)
  (row : CitationDatabase.Row) :
  In row
    (CitationDatabase.get_all_citations
       (fst (CitationDatabase.add_citation now data db))) ->
  CitationDatabase.row_id row
  = snd (CitationDatabase.add_citation now data db) ->
  CitationManagerApp.formatters style (CitationDatabase.as_citation row) index
  = CitationManagerApp.formatters style data index.
Proof.
  intros Hin Hid. rewrite get_all_after_add in Hin.
  apply in_app_or in Hin as [Hin|[<-|[]]].
  - exfalso. unfold CitationDatabase.get_all_citations in Hin.
    apply (proj1 (order_by_id_in _ _)) in Hin.
    destruct (next_id_fresh db) as [_ Hr]. rewrite Forall_forall in Hr.
    specialize (Hr row Hin). rewrite add_citation_rows in Hid.
    simpl in Hid. lia.
  - apply render_same_text, written_row_same_text.
Qed.

Lemma stored_record_renders_alike_witness :
  In (written_row "2024-05-01 10:00:00" two_author_record
        (CitationDatabase.init_database None))
    (CitationDatabase.get_all_citations
       (fst (CitationDatabase.add_citation "2024-05-01 10:00:00"
               two_author_record (CitationDatabase.init_database None)))) /\
  CitationDatabase.row_id
    (written_row "2024-05-01 10:00:00" two_author_record
       (CitationDatabase.init_database None)) = 1%Z /\
  CitationManagerApp.formatters CitationManagerApp.APA
    (CitationDatabase.as_citation
       (written_row "2024-05-01 10:00:00" two_author_record
          (CitationDatabase.init_database None))) 1
  = "Lee, A., & Ray, B. On Growth. https://doi.org/10.1000/x1".
Proof.
  assert (Hin : In (written_row "2024-05-01 10:00:00" two_author_record
                      (CitationDatabase.init_database None))
                  (CitationDatabase.get_all_citations
                     (fst (CitationDatabase.add_citation "2024-05-01 10:00:00"
                             two_author_record
                             (CitationDatabase.init_database None)))))
    by (left; reflexivity).
  split; [exact Hin|]. split; [reflexivity|].
  rewrite (stored_record_renders_alike CitationManagerApp.APA
             "2024-05-01 10:00:00" two_author_record
             (CitationDatabase.init_database None) 1 _ Hin eq_refl).
  reflexivity.
Defined.

(** X13: deleting by id removes from the listing the rows with that id
    and no other, and keeps the order of the rest; an id that is not
    listed leaves the listing as it is. *)
Theorem delete_removes_that_id (citation_id : Z) (db : CitationDatabase.t) :
  let listed := CitationDatabase.get_all_citations db in
  let listed' :=
    CitationDatabase.get_all_citations
      (CitationDatabase.delete_citation citation_id db) in
  listed'
  = filter (fun r => negb (CitationDatabase.row_id r =? citation_id)%Z) listed
  /\ ~ In citation_id (ids listed')
  /\ (~ In citation_id (ids listed) -> listed' = listed).
Proof.
  intros listed listed'.
  assert (E : listed' = filter (fun r => negb (CitationDatabase.row_id r
                                               =? citation_id)%Z) listed).
  { unfold listed', listed, CitationDatabase.get_all_citations,
      CitationDatabase.delete_citation. cbn [CitationDatabase.rows].
    apply order_by_id_filter. }
  split; [exact E|]. split.
  - rewrite E. unfold ids. intros H. apply in_map_iff in H as (r & Hid & Hin).
    apply filter_In in Hin as [_ Hp]. apply negb_true_iff in Hp.
    apply Z.eqb_neq in Hp. contradiction.
  - intros Hnot. rewrite E. apply forallb_filter_id.
    apply forallb_forall. intros r Hin. apply negb_true_iff, Z.eqb_neq.
    intros Hid. apply Hnot. unfold ids. apply in_map_iff. now exists r.
Qed.

Lemma operate_from (ops : list Operation) (db : CitationDatabase.t)
  (acc : list Z) :
  exists (db' : CitationDatabase.t) (new : list Z),
    fold_left apply_operation ops (db, acc) = (db', (acc ++ new)%list) /\
    (CitationDatabase.sequence db <= CitationDatabase.sequence db')%Z /\
    StronglySorted Z.lt new /\
    Forall (fun i => (CitationDatabase.sequence db < i)%Z) new.
Proof.
  revert db acc; induction ops as [|op ops IH]; intros db acc.
  - exists db, []. rewrite app_nil_r. repeat split; [lia|constructor|constructor].
  - destruct op as [now data|citation_id|]; cbn [fold_left apply_operation].
    + rewrite add_citation_rows.
      destruct (IH {| CitationDatabase.rows :=
                        (CitationDatabase.rows db ++ [written_row now data db])%list;
                      CitationDatabase.sequence := CitationDatabase.next_id db |}
                  (acc ++ [CitationDatabase.next_id db])%list)
        as (db' & new & E & Hseq & Hs & Hf).
      cbn [CitationDatabase.sequence] in Hseq, Hf.
      destruct (next_id_fresh db) as [Hn _].
      exists db', (CitationDatabase.next_id db :: new).
      rewrite E, <- app_assoc. repeat split; [lia| |].
      * constructor; [exact Hs|exact Hf].
      * constructor; [exact Hn|].
        eapply Forall_impl; [|exact Hf]. simpl. intros i Hi. lia.
    + exact (IH (CitationDatabase.delete_citation citation_id db) acc).
    + exact (IH (CitationDatabase.clear_all db) acc).
Qed.

(** X14: an id is never given twice: over any run of insertions,
    deletions and clearings, from any database, the ids that the
    insertions return grow strictly, and each is larger than the counter
    of the database at the start. *)
Theorem ids_are_never_reused (db : CitationDatabase.t)
  (ops : list Operation) :
  let issued := snd (operate db ops) in
  StronglySorted Z.lt issued /\
  NoDup issued /\
  Forall (fun i => (CitationDatabase.sequence db < i)%Z) issued.
Proof.
  intros issued. subst issued. unfold operate.
  destruct (operate_from ops db []) as (db' & new & E & _ & Hs & Hf).
  rewrite E. cbn [snd app]. split; [exact Hs|]. split; [|exact Hf].
  clear E Hf. induction Hs as [|i new Hs IH Hi]; constructor; [|exact IH].
  intros Hin. rewrite Forall_forall in Hi. specialize (Hi i Hin). lia.
Qed.

Lemma sorted_snoc (l : list CitationDatabase.Row) (x : CitationDatabase.Row) :
  StronglySorted id_lt l -> Forall (fun r => id_lt r x) l ->
  StronglySorted id_lt (l ++ [x]).
Proof.
  induction l as [|a l IH]; intros Hs Hf; simpl.
  - repeat constructor.
  - inversion Hs as [|? ? Hl Ha]; inversion Hf as [|? ? Hax Hlx]; subst.
    constructor; [now apply IH|].
    apply Forall_app. split; [exact Ha|]. now constructor.
Qed.

Lemma sorted_filter (p : CitationDatabase.Row -> bool)
  (l : list CitationDatabase.Row) :
  StronglySorted id_lt l -> StronglySorted id_lt (filter p l).
Proof.
  induction l as [|a l IH]; intros Hs; simpl; [constructor|].
  inversion Hs as [|? ? Hl Ha]; subst.
  destruct (p a); [|now apply IH].
  constructor; [now apply IH|].
  rewrite Forall_forall in *. intros x Hx.
  apply filter_In in Hx as [Hx _]. now apply Ha.
Qed.

Lemma kept_step (state : CitationDatabase.t * list Z) (op : Operation) :
  kept state -> kept (apply_operation state op).
Proof.
  destruct state as [db issued]. intros (Hs & Hb & H0 & Hi).
  cbn [fst snd] in *.
  destruct op as [now data|citation_id|]; cbn [apply_operation].
  - rewrite add_citation_rows.
    destruct (next_id_fresh db) as [Hn Hr].
    unfold kept. cbn [fst snd CitationDatabase.rows CitationDatabase.sequence].
    repeat split.
    + apply sorted_snoc; [exact Hs|].
      eapply Forall_impl; [|exact Hr]. unfold id_lt. simpl. auto.
    + apply Forall_app. split.
      * eapply Forall_impl; [|exact Hb]. simpl. intros r Hr'. lia.
      * constructor; [|constructor]. simpl. lia.
    + lia.
    + unfold ids. rewrite map_app. intros i Hin.
      apply in_app_or in Hin as [Hin|[<-|[]]].
      * apply in_or_app. left. now apply Hi.
      * apply in_or_app. right. left. reflexivity.
  - unfold kept. cbn [fst snd CitationDatabase.delete_citation
                      CitationDatabase.rows CitationDatabase.sequence].
    repeat split.
    + now apply sorted_filter.
    + rewrite Forall_forall in *. intros r Hin.
      apply filter_In in Hin as [Hin _]. now apply Hb.
    + exact H0.
    + intros i Hin. apply Hi. unfold ids in *.
      apply in_map_iff in Hin as (r & Hid & Hin).
      apply filter_In in Hin as [Hin _]. apply in_map_iff. now exists r.
  - unfold kept. cbn [fst snd CitationDatabase.clear_all
                      CitationDatabase.rows CitationDatabase.sequence].
    repeat split; [constructor|constructor|exact H0|].
    intros i [].
Qed.

Lemma kept_run (ops : list Operation)
  (state : CitationDatabase.t * list Z) :
  kept state -> kept (fold_left apply_operation ops state).
Proof.
  revert state; induction ops as [|op ops IH]; intros state H; [exact H|].
  simpl. apply IH. now apply kept_step.
Qed.

Lemma order_by_id_of_sorted (l : list CitationDatabase.Row) :
  StronglySorted id_lt l -> CitationDatabase.order_by_id l = l.
Proof.
  induction l as [|a l IH]; intros Hs; [reflexivity|].
  inversion Hs as [|? ? Hl Ha]; subst. simpl.
  rewrite (IH Hl). now apply insert_by_id_first.
Qed.

Lemma sorted_ids (l : list CitationDatabase.Row) :
  StronglySorted id_lt l -> StronglySorted Z.lt (ids l).
Proof.
  induction l as [|a l IH]; intros Hs; simpl; [constructor|].
  inversion Hs as [|? ? Hl Ha]; subst.
  constructor; [now apply IH|].
  unfold ids. apply Forall_map. exact Ha.
Qed.

(** X15: in a database that started empty, after any run of insertions,
    deletions and clearings, the listing shows the rows in the order of
    their insertion, under ids that grow strictly, lie between 1 and the
    last id given, and were each returned by an insertion of the run. *)
Theorem listing_of_a_fresh_database (ops : list Operation) :
  let db := fst (operate (CitationDatabase.init_database None) ops) in
  let issued := snd (operate (CitationDatabase.init_database None) ops) in
  let listed := CitationDatabase.get_all_citations db in
  listed = CitationDatabase.rows db /\
  StronglySorted Z.lt (ids listed) /\
  NoDup (ids listed) /\
  Forall (fun i => (1 <= i <= CitationDatabase.sequence db)%Z) (ids listed) /\
  incl (ids listed) issued.
Proof.
  intros db issued listed.
  assert (K : kept (operate (CitationDatabase.init_database None) ops)).
  { unfold operate. apply kept_run. unfold kept. simpl.
    repeat split; try constructor. lia. intros i []. }
  destruct K as (Hs & Hb & _ & Hi). fold db in Hs, Hb, Hi. fold issued in Hi.
  assert (E : listed = CitationDatabase.rows db)
    by (apply order_by_id_of_sorted, Hs).
  split; [exact E|]. rewrite E.
  pose proof (sorted_ids _ Hs) as Hsi.
  split; [exact Hsi|]. split; [|split; [|exact Hi]].
  - clear -Hsi. induction Hsi as [|i l Hl IH Hf]; constructor; [|exact IH].
    intros Hin. rewrite Forall_forall in Hf. specialize (Hf i Hin). lia.
  - unfold ids. apply Forall_map. exact Hb.
Qed.

(** ** The handlers of the window *)

Lemma refresh_in_sync (s : Handlers.Session) :
  in_sync (Handlers.refresh_citation_list s).
Proof. reflexivity. Qed.

Lemma show_in_sync (m : Handlers.Message) (s : Handlers.Session) :
  in_sync s -> in_sync (Handlers.show m s).
Proof. intros H. exact H. Qed.

Lemma handle_in_sync (s : Handlers.Session) (e : Handlers.Event) :
  in_sync s -> in_sync (Handlers.handle s e).
Proof.
  intros H. destruct e as [u get y now|t a y j d now|sel ok|ok| | |style];
    cbn [Handlers.handle].
  - unfold Handlers.fetch_and_add.
    destruct (Py.strip u); [exact H|].
    destruct (MetadataExtractor.extract_from_url _ _ _); [|exact H].
    destruct (CitationDatabase.add_citation _ _ _). reflexivity.
  - unfold Handlers.add_manual_citation.
    destruct (Py.truthy _); [|exact H].
    destruct (CitationDatabase.add_citation _ _ _). reflexivity.
  - unfold Handlers.delete_selected.
    destruct sel; [exact H|]. destruct ok; [reflexivity|exact H].
  - unfold Handlers.clear_all. destruct ok; [reflexivity|exact H].
  - reflexivity.
  - exact H.
  - exact H.
Qed.

(** X16: the list of citations always shows the database: after any run
    of events from the opening of the window, on any database file, its
    lines are those of the rows listed by id, one line for each row. *)
Theorem list_shows_the_database (file : option CitationDatabase.t)
  (events : list Handlers.Event) :
  let s := Handlers.run file events in
  Handlers.tree s
  = map Handlers.cells (CitationDatabase.get_all_citations (Handlers.db s))
  /\
  map Handlers.cell_id (Handlers.tree s)
  = ids (CitationDatabase.get_all_citations (Handlers.db s)).
Proof.
  intros s.
  assert (H : in_sync s).
  { subst s. unfold Handlers.run.
    assert (G : forall s0, in_sync s0 ->
                           in_sync (fold_left Handlers.handle events s0)).
    { induction events as [|e events IH]; intros s0 H0; [exact H0|].
      simpl. apply IH. now apply handle_in_sync. }
    apply G. reflexivity. }
  split; [exact H|]. rewrite H, map_map. reflexivity.
Qed.

Lemma length_take (n : nat) (s : string) :
  String.length (Py.take n s) = Nat.min n (String.length s).
Proof.
  revert s; induction n as [|n IH]; intros [|c s]; simpl; try reflexivity.
  now rewrite IH.
Qed.

Lemma take_prefix (n : nat) (s : string) :
  exists rest : string, s = Py.take n s ++ rest.
Proof.
  revert s; induction n as [|n IH]; intros s.
  - exists s. now destruct s.
  - destruct s as [|c s]; [now exists EmptyString|].
    destruct (IH s) as [rest E]. exists rest. simpl. now rewrite <- E.
Qed.

Lemma shorten_spec (n : nat) (s : string) :
  (String.length (Handlers.shorten n s) <= n + 3)%nat /\
  ((String.length s <= n)%nat -> Handlers.shorten n s = s) /\
  ((n < String.length s)%nat ->
   Handlers.shorten n s = Py.take n s ++ "..." /\
   String.length (Handlers.shorten n s) = (n + 3)%nat).
Proof.
  unfold Handlers.shorten.
  destruct (Nat.ltb_spec n (String.length s)) as [Hlt|Hle].
  - rewrite length_append, length_take. simpl. repeat split; lia.
  - repeat split; lia.
Qed.

(** X17: a line of the list shows a title of at most 50 characters as it
    is, and a longer one as its first 50 characters and three periods;
    the same holds for the authors with 30 characters, and an authors
    column without a value stays without one. *)
Theorem list_cells_are_cut (citation : CitationDatabase.Row) :
  let line := Handlers.cells citation in
  let shown := Handlers.cell_title line in
  let full := CitationDatabase.row_title citation in
  (String.length shown <= 53)%nat /\
  ((String.length full <= 50)%nat -> shown = full) /\
  ((50 < String.length full)%nat ->
   shown = Py.take 50 full ++ "..." /\
   String.length shown = 53%nat /\
   exists rest : string, full = Py.take 50 full ++ rest) /\
  match CitationDatabase.row_authors citation with
  | None => Handlers.cell_authors line = None
  | Some a =>
      exists shown_authors : string,
        Handlers.cell_authors line = Some shown_authors /\
        (String.length shown_authors <= 33)%nat /\
        ((String.length a <= 30)%nat -> shown_authors = a) /\
        ((30 < String.length a)%nat ->
         shown_authors = Py.take 30 a ++ "...")
  end.
Proof.
  intros line shown full.
  destruct (shorten_spec 50 full) as (Hb & Hs & Hl).
  split; [exact Hb|]. split; [exact Hs|]. split.
  - intros H. destruct (Hl H) as [E L].
    split; [exact E|]. split; [exact L|apply take_prefix].
  - subst line. unfold Handlers.cells. cbn [Handlers.cell_authors].
    destruct (CitationDatabase.row_authors citation) as [a|]; [|reflexivity].
    destruct (shorten_spec 30 a) as (Hb' & Hs' & Hl').
    destruct (Py.truthy (Some a)) eqn:T.
    + exists (Handlers.shorten 30 a). repeat split; try assumption.
      intros H. now destruct (Hl' H).
    + exists a. destruct a; [|discriminate]. simpl. repeat split; try lia.
Qed.

Lemma strip_truthy (s : string) :
  Py.truthy (Some (Py.strip s)) = negb (all_chars Py.isspace s).
Proof.
  destruct (all_chars Py.isspace s) eqn:E.
  - apply strip_empty_iff in E. now rewrite E.
  - destruct (Py.strip s) eqn:S; [|reflexivity].
    apply strip_empty_iff in S. congruence.
Qed.

(** X18: a manual entry whose title is blank is refused, with a warning
    and nothing stored; any other is stored as one new row, listed last,
    that holds the five texts stripped, the source type manual, and the
    empty string for the volume, the issue, the pages and the URL. *)
Theorem manual_entry_needs_a_title
  (title_entry authors_entry year_entry journal_entry doi_entry now : string)
  (s : Handlers.Session) :
  let s' :=
    Handlers.add_manual_citation title_entry authors_entry year_entry
      journal_entry doi_entry now s in
  (all_chars Py.isspace title_entry = true ->
   Handlers.db s' = Handlers.db s /\
   Handlers.tree s' = Handlers.tree s /\
   Handlers.dialogs s'
   = (Handlers.dialogs s
      ++ [Handlers.showwarning "Input Required"
            "Please enter at least a title"])%list)
  /\
  (all_chars Py.isspace title_entry = false ->
   exists row : CitationDatabase.Row,
     CitationDatabase.get_all_citations (Handlers.db s')
     = (CitationDatabase.get_all_citations (Handlers.db s) ++ [row])%list /\
     CitationDatabase.row_title row = Py.strip title_entry /\
     CitationDatabase.row_title row <> EmptyString /\
     CitationDatabase.row_authors row = Some (Py.strip authors_entry) /\
     CitationDatabase.row_year row = Some (Py.strip year_entry) /\
     CitationDatabase.row_journal row = Some (Py.strip journal_entry) /\
     CitationDatabase.row_doi row = Some (Py.strip doi_entry) /\
     CitationDatabase.row_source_type row = Some "manual" /\
     CitationDatabase.row_volume row = Some EmptyString /\
     CitationDatabase.row_issue row = Some EmptyString /\
     CitationDatabase.row_pages row = Some EmptyString /\
     CitationDatabase.row_url row = Some EmptyString /\
     Handlers.dialogs s'
     = (Handlers.dialogs s
        ++ [Handlers.showinfo "Success" "Citation added successfully!"])%list).
Proof.
  intros s'. subst s'. unfold Handlers.add_manual_citation.
  cbn [title]. rewrite strip_truthy.
  fold (manual_record title_entry authors_entry year_entry journal_entry
          doi_entry).
  split; intros H; rewrite H; cbn [negb].
  - repeat split.
  - rewrite add_citation_rows.
    exists (written_row now
              (manual_record title_entry authors_entry year_entry
                 journal_entry doi_entry) (Handlers.db s)).
    split.
    + cbn [Handlers.show Handlers.refresh_citation_list Handlers.with_db
             Handlers.db].
      rewrite <- (get_all_after_add now _ (Handlers.db s)).
      now rewrite add_citation_rows.
    + repeat split.
      intros E. cbn in E. apply strip_empty_iff in E. congruence.
Qed.

(** X19: fetching needs a URL that is not blank, or it warns and stores
    nothing; when the page cannot be fetched, nothing is stored and the
    error box shows the text of the failure after two headings; when it
    can, one row is stored, listed last, with the stripped URL, the
    source type website and the extracted title, authors, year, journal
    and DOI, and with the empty string for volume, issue and pages. *)
Theorem fetch_stores_one_row_or_none (url_entry : string)
  (get : string -> MetadataExtractor.Response) (now_year : Z) (now : string)
  (s : Handlers.Session) :
  let s' := Handlers.fetch_and_add url_entry get now_year now s in
  let url := Py.strip url_entry in
  (all_chars Py.isspace url_entry = true ->
   Handlers.db s' = Handlers.db s /\
   Handlers.dialogs s'
   = (Handlers.dialogs s
      ++ [Handlers.showwarning "Input Required" "Please enter a URL"])%list)
  /\
  (forall e : string,
     all_chars Py.isspace url_entry = false ->
     get url = MetadataExtractor.Raised e ->
     Handlers.db s' = Handlers.db s /\
     Handlers.tree s' = Handlers.tree s /\
     Handlers.dialogs s'
     = (Handlers.dialogs s
        ++ [Handlers.showerror "Error"
              ("Failed to fetch metadata:" ++ CitationManagerApp.newline
               ++ "Failed to extract metadata: " ++ e)])%list)
  /\
  (forall (soup : Soup.t) (html_text : string),
     all_chars Py.isspace url_entry = false ->
     get url = MetadataExtractor.Page soup html_text ->
     exists row : CitationDatabase.Row,
       CitationDatabase.get_all_citations (Handlers.db s')
       = (CitationDatabase.get_all_citations (Handlers.db s) ++ [row])%list /\
       CitationDatabase.row_url row = Some url /\
       url <> EmptyString /\
       CitationDatabase.row_source_type row = Some "website" /\
       CitationDatabase.row_title row
       = MetadataExtractor._extract_title soup /\
       CitationDatabase.row_authors row
       = Some (MetadataExtractor._extract_authors soup) /\
       CitationDatabase.row_year row
       = Some (MetadataExtractor._extract_year now_year soup html_text) /\
       CitationDatabase.row_journal row
       = Some (MetadataExtractor._extract_journal soup) /\
       CitationDatabase.row_doi row
       = Some (MetadataExtractor._extract_doi soup html_text) /\
       CitationDatabase.row_volume row = Some EmptyString /\
       CitationDatabase.row_issue row = Some EmptyString /\
       CitationDatabase.row_pages row = Some EmptyString /\
       Handlers.dialogs s'
       = (Handlers.dialogs s
          ++ [Handlers.showinfo "Success"
                ("Citation added successfully!" ++ CitationManagerApp.newline
                 ++ "Title: " ++ MetadataExtractor._extract_title soup)])%list).
Proof.
  intros s' url. subst s'. unfold Handlers.fetch_and_add. fold url.
  pose proof (strip_truthy url_entry) as T. fold url in T.
  split; [|split].
  - intros H. rewrite H in T. destruct url; [|discriminate]. split; reflexivity.
  - intros e H Hget. rewrite H in T.
    destruct url as [|c u] eqn:U; [discriminate|].
    unfold MetadataExtractor.extract_from_url. rewrite Hget.
    repeat split.
  - intros soup html_text H Hget. rewrite H in T.
    destruct url as [|c u] eqn:U; [discriminate|].
    unfold MetadataExtractor.extract_from_url. rewrite Hget.
    rewrite add_citation_rows.
    match goal with
    | |- context [written_row now ?m (Handlers.db s)] =>
        exists (written_row now m (Handlers.db s)); split;
          [cbn [Handlers.show Handlers.refresh_citation_list Handlers.with_db
                  Handlers.db];
           rewrite <- (get_all_after_add now m (Handlers.db s));
           now rewrite add_citation_rows|]
    end.
    repeat split. discriminate.
Qed.

Lemma fold_delete_rows (selected : list Handlers.TreeRow)
  (d : CitationDatabase.t) :
  CitationDatabase.rows
    (fold_left
       (fun d item =>
          CitationDatabase.delete_citation (Handlers.cell_id item) d)
       selected d)
  = filter (not_selected selected) (CitationDatabase.rows d)
  /\
  CitationDatabase.sequence
    (fold_left
       (fun d item =>
          CitationDatabase.delete_citation (Handlers.cell_id item) d)
       selected d)
  = CitationDatabase.sequence d.
Proof.
  revert d; induction selected as [|item selected IH]; intros d; simpl.
  - split; [|reflexivity]. symmetry. apply forallb_filter_id.
    apply forallb_forall. reflexivity.
  - destruct (IH (CitationDatabase.delete_citation
                    (Handlers.cell_id item) d)) as [Hr Hs].
    rewrite Hr, Hs. split; [|reflexivity].
    cbn [CitationDatabase.delete_citation CitationDatabase.rows].
    induction (CitationDatabase.rows d) as [|r l IHl]; [reflexivity|].
    simpl. unfold not_selected at 2. cbn [existsb].
    destruct (CitationDatabase.row_id r =? Handlers.cell_id item)%Z; simpl.
    + exact IHl.
    + fold (not_selected selected r).
      destruct (not_selected selected r); [now rewrite IHl|exact IHl].
Qed.

(** X20: deleting the selection removes from the listing the rows whose
    id is on a selected line and no other, once the confirmation is
    given; without a selection or without the confirmation the database
    is left as it is, and the ids given so far are not given again. *)
Theorem selection_is_deleted_on_confirmation
  (selected : list Handlers.TreeRow) (askyesno : bool)
  (s : Handlers.Session) :
  let s' := Handlers.delete_selected selected askyesno s in
  (selected <> [] -> askyesno = true ->
   CitationDatabase.get_all_citations (Handlers.db s')
   = filter (not_selected selected)
       (CitationDatabase.get_all_citations (Handlers.db s)) /\
   Handlers.tree s'
   = map Handlers.cells
       (filter (not_selected selected)
          (CitationDatabase.get_all_citations (Handlers.db s))))
  /\
  (selected = [] \/ askyesno = false -> Handlers.db s' = Handlers.db s)
  /\
  CitationDatabase.sequence (Handlers.db s')
  = CitationDatabase.sequence (Handlers.db s).
Proof.
  intros s'. subst s'. unfold Handlers.delete_selected.
  destruct (fold_delete_rows selected (Handlers.db s)) as [Hr Hs].
  assert (G : CitationDatabase.get_all_citations
                (fold_left
                   (fun d item =>
                      CitationDatabase.delete_citation
                        (Handlers.cell_id item) d)
                   selected (Handlers.db s))
              = filter (not_selected selected)
                  (CitationDatabase.get_all_citations (Handlers.db s))).
  { unfold CitationDatabase.get_all_citations. rewrite Hr.
    apply order_by_id_filter. }
  destruct selected as [|item selected].
  - split; [|split].
    + intros Hne _. now destruct Hne.
    + intros _. reflexivity.
    + reflexivity.
  - destruct askyesno.
    + split; [|split].
      * intros _ _. cbn [Handlers.show Handlers.refresh_citation_list
                           Handlers.with_db Handlers.db Handlers.tree].
        rewrite G. split; reflexivity.
      * intros [H|H]; discriminate.
      * exact Hs.
    + split; [|split].
      * intros _ Hno. discriminate Hno.
      * intros _. reflexivity.
      * reflexivity.
Qed.

Lemma selection_is_deleted_on_confirmation_witness :
  Handlers.tree two_manual_rows
  = [first_line;
     Handlers.mkTreeRow 2 "On Form" (Some "Bob Ray") (Some "2001")] /\
  ids (CitationDatabase.get_all_citations
         (Handlers.db
            (Handlers.delete_selected [first_line] true two_manual_rows)))
  = [2%Z].
Proof.
  split; [reflexivity|].
  destruct (selection_is_deleted_on_confirmation [first_line] true
              two_manual_rows) as [H _].
  destruct H as [H _]; [discriminate|reflexivity|].
  rewrite H. reflexivity.
Defined.

(** X21: clearing on confirmation empties the listing, the list and the
    preview pane but keeps the counter of ids; a preview asked next
    writes nothing in the pane and shows the notice that there is no
    citation. *)
Theorem cleared_session_previews_nothing (s : Handlers.Session) :
  let s' := Handlers.clear_all true s in
  CitationDatabase.get_all_citations (Handlers.db s') = [] /\
  Handlers.tree s' = [] /\
  Handlers.preview_text s' = EmptyString /\
  CitationDatabase.sequence (Handlers.db s')
  = CitationDatabase.sequence (Handlers.db s) /\
  Handlers.preview_text (Handlers.preview_bibliography s') = EmptyString /\
  Handlers.dialogs (Handlers.preview_bibliography s')
  = (Handlers.dialogs s
     ++ [Handlers.showinfo "Success" "All citations cleared!";
         Handlers.showinfo "No Citations"
           "No citations to preview. Add some citations first!"])%list.
Proof.
  intros s'. subst s'. repeat split.
  unfold Handlers.preview_bibliography. simpl.
  now rewrite <- app_assoc.
Qed.

(** X22: what is exported is what is previewed: when there are records,
    the file dialog gives a name and the file opens, the file written
    holds the very text that the preview puts in the pane, and the export
    leaves the pane as it is; cancelled, it does nothing at all; when the
    file does not open, nothing is written. *)
Theorem export_writes_the_preview (app : CitationManagerApp.App)
  (asksaveasfilename : string -> string) :
  CitationManagerApp.citations app <> [] ->
  let proposed :=
    "bibliography_"
    ++ Py.lower (CitationManagerApp.style_name
                   (CitationManagerApp.style_var app))
    ++ ".txt" in
  let filename := asksaveasfilename proposed in
  (filename <> EmptyString ->
   snd (CitationManagerApp.export_bibliography asksaveasfilename None app)
   = Some (filename,
           CitationManagerApp.preview_text
             (CitationManagerApp.preview_bibliography app)) /\
   CitationManagerApp.preview_text
     (fst (CitationManagerApp.export_bibliography asksaveasfilename None app))
   = CitationManagerApp.preview_text app)
  /\
  (filename = EmptyString ->
   forall open_error : option string,
     CitationManagerApp.export_bibliography asksaveasfilename open_error app
     = (app, None))
  /\
  (forall e : string,
     snd (CitationManagerApp.export_bibliography asksaveasfilename (Some e)
            app) = None).
Proof.
  intros Hne proposed filename.
  unfold CitationManagerApp.export_bibliography,
    CitationManagerApp.preview_bibliography.
  destruct (CitationManagerApp.citations app) as [|c cs] eqn:E;
    [contradiction|].
  fold proposed. subst filename.
  destruct (asksaveasfilename proposed) as [|a f]; split; [|split| |split].
  - intros Hf. contradiction.
  - reflexivity.
  - reflexivity.
  - intros _. split; reflexivity.
  - intros Hf. discriminate Hf.
  - reflexivity.
Qed.

Lemma export_writes_the_preview_witness :
  CitationManagerApp.citations
    {| CitationManagerApp.citations := [two_author_record];
       CitationManagerApp.style_var := CitationManagerApp.MLA;
       CitationManagerApp.preview_text := EmptyString;
       CitationManagerApp.dialogs := [] |} <> [] /\
  snd (CitationManagerApp.export_bibliography (fun proposed => proposed) None
         {| CitationManagerApp.citations := [two_author_record];
            CitationManagerApp.style_var := CitationManagerApp.MLA;
            CitationManagerApp.preview_text := EmptyString;
            CitationManagerApp.dialogs := [] |})
  = Some ("bibliography_mla.txt",
          header CitationManagerApp.MLA
          ++ "Lee, Ann, et al. " ++ Py.dquote ++ "On Growth." ++ Py.dquote
          ++ " doi:10.1000/x1."
          ++ CitationManagerApp.newline ++ CitationManagerApp.newline).
Proof.
  split; [discriminate|].
  destruct (export_writes_the_preview
              {| CitationManagerApp.citations := [two_author_record];
                 CitationManagerApp.style_var := CitationManagerApp.MLA;
                 CitationManagerApp.preview_text := EmptyString;
                 CitationManagerApp.dialogs := [] |}
              (fun proposed => proposed) ltac:(discriminate)) as [H _].
  destruct H as [H _]; [discriminate|]. rewrite H. reflexivity.
Defined.

(** X23: the preview of a sequence of records that is not empty is the
    header of the chosen style and then, for each record in the order
    given, its entry under the ordinals 1, 2, ... and a blank line. *)
Theorem preview_lists_the_records_in_order (app : CitationManagerApp.App) :
  CitationManagerApp.citations app <> [] ->
  CitationManagerApp.preview_text
    (CitationManagerApp.preview_bibliography app)
  = header (CitationManagerApp.style_var app)
    ++ entries (CitationManagerApp.style_var app) 1
         (CitationManagerApp.citations app)
  /\
  CitationManagerApp.dialogs (CitationManagerApp.preview_bibliography app)
  = CitationManagerApp.dialogs app.
Proof.
  intros H. unfold CitationManagerApp.preview_bibliography.
  destruct (CitationManagerApp.citations app) as [|c cs] eqn:E;
    [contradiction|].
  cbn [CitationManagerApp.preview_text CitationManagerApp.dialogs].
  split; [apply written_header_entries|reflexivity].
Qed.

Lemma preview_lists_the_records_in_order_witness :
  CitationManagerApp.citations
    {| CitationManagerApp.citations := [seven_authors; title_only_record];
       CitationManagerApp.style_var := CitationManagerApp.Vancouver;
       CitationManagerApp.preview_text := "old";
       CitationManagerApp.dialogs := [] |} <> [] /\
  CitationManagerApp.preview_text
    (CitationManagerApp.preview_bibliography
       {| CitationManagerApp.citations := [seven_authors; title_only_record];
          CitationManagerApp.style_var := CitationManagerApp.Vancouver;
          CitationManagerApp.preview_text := "old";
          CitationManagerApp.dialogs := [] |})
  = header CitationManagerApp.Vancouver
    ++ "1. Lee A, Ray B, Dow C, Poe D, Kim E, Orr F, et al."
    ++ CitationManagerApp.newline ++ CitationManagerApp.newline
    ++ "2. On Growth."
    ++ CitationManagerApp.newline ++ CitationManagerApp.newline.
Proof.
  split; [discriminate|].
  destruct (preview_lists_the_records_in_order
              {| CitationManagerApp.citations :=
                   [seven_authors; title_only_record];
                 CitationManagerApp.style_var := CitationManagerApp.Vancouver;
                 CitationManagerApp.preview_text := "old";
                 CitationManagerApp.dialogs := [] |}
              ltac:(discriminate)) as [H _].
  rewrite H. reflexivity.
Defined.

Lemma handle_well_sourced (s : Handlers.Session) (e : Handlers.Event) :
  Forall well_sourced (CitationDatabase.rows (Handlers.db s)) ->
  Forall well_sourced
    (CitationDatabase.rows (Handlers.db (Handlers.handle s e))).
Proof.
  intros H. destruct e as [u get y now|t a y j d now|sel ok|ok| | |style];
    cbn [Handlers.handle].
  - unfold Handlers.fetch_and_add.
    destruct (Py.strip u) as [|c url] eqn:U; [exact H|].
    unfold MetadataExtractor.extract_from_url.
    destruct (get (String c url)) as [err|soup html_text]; [exact H|].
    rewrite add_citation_rows.
    cbn [Handlers.show Handlers.refresh_citation_list Handlers.with_db
           Handlers.db CitationDatabase.rows].
    apply Forall_app. split; [exact H|]. constructor; [|constructor].
    unfold well_sourced, written_row. simpl. repeat split. right.
    repeat split.
    + eexists. split; [reflexivity|discriminate].
    + eexists. split; [reflexivity|apply extract_year_nonempty].
  - unfold Handlers.add_manual_citation. cbn [title].
    destruct (Py.truthy (Some (Py.strip t))) eqn:T; [|exact H].
    rewrite add_citation_rows.
    cbn [Handlers.show Handlers.refresh_citation_list Handlers.with_db
           Handlers.db CitationDatabase.rows].
    apply Forall_app. split; [exact H|]. constructor; [|constructor].
    unfold well_sourced, written_row. simpl. repeat split. left.
    repeat split. intros E. rewrite E in T. discriminate.
  - unfold Handlers.delete_selected.
    destruct sel as [|item sel]; [exact H|]. destruct ok; [|exact H].
    cbn [Handlers.show Handlers.refresh_citation_list Handlers.with_db
           Handlers.db].
    destruct (fold_delete_rows (item :: sel) (Handlers.db s)) as [Hr _].
    rewrite Hr. rewrite Forall_forall in *. intros r Hin.
    apply filter_In in Hin as [Hin _]. now apply H.
  - unfold Handlers.clear_all. destruct ok; [constructor|exact H].
  - exact H.
  - exact H.
  - exact H.
Qed.

(** X24: in a window opened on no database file, after any run of
    events, every row listed is either a manual row, with a title that
    is not empty and an empty URL, or a row from a page, with a URL and
    a year that are not empty; and no row has a volume, an issue or
    pages, which the window never stores. *)
Theorem stored_rows_are_well_sourced (events : list Handlers.Event) :
  Forall well_sourced
    (CitationDatabase.get_all_citations
       (Handlers.db (Handlers.run None events))).
Proof.
  assert (G : forall s0,
             Forall well_sourced (CitationDatabase.rows (Handlers.db s0)) ->
             Forall well_sourced
               (CitationDatabase.rows
                  (Handlers.db (fold_left Handlers.handle events s0)))).
  { induction events as [|e events IH]; intros s0 H0; [exact H0|].
    simpl. apply IH. now apply handle_well_sourced. }
  specialize (G (Handlers.start None) (Forall_nil _)).
  unfold Handlers.run. rewrite Forall_forall in *. intros r Hin.
  apply G. unfold CitationDatabase.get_all_citations in Hin.
  now apply (proj1 (order_by_id_in _ _)) in Hin.
Qed.

(** X25: the preview pane follows the database only on demand: of all
    the events, only a preview and a confirmed clearing can change its
    text, so that after an insertion or a deletion the pane still shows
    the bibliography as it was. *)
Theorem preview_changes_on_demand_only (s : Handlers.Session)
  (e : Handlers.Event) :
  Handlers.preview_text (Handlers.handle s e) <> Handlers.preview_text s ->
  e = Handlers.Preview \/ e = Handlers.ClearAll true.
Proof.
  intros H. destruct e as [u get y now|t a y j d now|sel ok|ok| | |style];
    cbn [Handlers.handle] in H.
  - exfalso. apply H. unfold Handlers.fetch_and_add.
    destruct (Py.strip u); [reflexivity|].
    destruct (MetadataExtractor.extract_from_url _ _ _); [|reflexivity].
    destruct (CitationDatabase.add_citation _ _ _). reflexivity.
  - exfalso. apply H. unfold Handlers.add_manual_citation.
    destruct (Py.truthy _); [|reflexivity].
    destruct (CitationDatabase.add_citation _ _ _). reflexivity.
  - exfalso. apply H. unfold Handlers.delete_selected.
    destruct sel; [reflexivity|]. destruct ok; reflexivity.
  - destruct ok; [now right|]. exfalso. now apply H.
  - exfalso. now apply H.
  - now left.
  - exfalso. now apply H.
Qed.

Lemma preview_changes_on_demand_only_witness :
  Handlers.preview_text (Handlers.handle two_manual_rows Handlers.Preview)
  <> Handlers.preview_text two_manual_rows /\
  (Handlers.Preview = Handlers.Preview \/
   Handlers.Preview = Handlers.ClearAll true).
Proof.
  assert (H : Handlers.preview_text
                (Handlers.handle two_manual_rows Handlers.Preview)
              <> Handlers.preview_text two_manual_rows)
    by (vm_compute; discriminate).
  split; [exact H|].
  exact (preview_changes_on_demand_only two_manual_rows Handlers.Preview H).
Defined.
